(** * Question-ID standardization pass

    A shallow embedding of [docs/architecture/standardize-question-ids.py]:
    the taxonomy table [SUBSECTION_CODES], [get_standardized_code],
    [standardize_question_ids], [verify_no_duplicates],
    [generate_summary_report] and the script's entry point, together with
    the properties of the pass.

    Modelling conventions.
    - A Python [str] is the list of its code points.
    - A value returned by [json.load] is a [json] tree; a dict keeps its items
      in insertion order (an association list, first binding wins).
    - Python numbers (int and float) are kept abstract in a [Runtime]: the pass
      only tests their truth value, uses them as set keys and orders them in
      [sorted].  The Unicode part of [str.lower] is a [Runtime] member too;
      on ASCII text lowercasing is computed.
    - A file on disk holds a JSON document ([Parsed]), text that is not JSON
      ([Malformed]) or cannot be read at all ([Unreadable]); what [json.dump]
      writes is read back by [json.load] as the same tree.
    - [print] appends an [event] to the console output.  The console is
      UTF-8: a [print] whose text comes from the records (lines 119, 175 and
      218) raises when that text holds a lone surrogate.  File names and
      the messages of exceptions are text the console can encode.
    - An exception is a value of [exn]; loops return the state they reached
      together with the exception that stopped them, if any. *)

From Stdlib Require Import String Ascii NArith ZArith DecimalString DecimalNat.
From Stdlib Require Import Permutation Sorted.
From stdpp Require Import base list.

Local Open Scope N_scope.
#[local] Set Warnings "-register-all".

(** ** Python strings *)

Definition pystr : Type := list N.

(** The code points of an ASCII literal of the source. *)
Definition lit (s : string) : pystr := map N_of_ascii (list_ascii_of_string s).

Fixpoint str_eqb (s t : pystr) : bool :=
  match s, t with
  | [], [] => true
  | c :: s', d :: t' => (c =? d) && str_eqb s' t'
  | _, _ => false
  end.

(** [s < t] on [str]: lexicographic on code points. *)
Fixpoint str_ltb (s t : pystr) : bool :=
  match s, t with
  | _, [] => false
  | [], _ :: _ => true
  | c :: s', d :: t' => (c <? d) || ((c =? d) && str_ltb s' t')
  end.

Definition is_ascii (s : pystr) : bool := forallb (fun c => c <? 128) s.

(** [str.lower] on a code point of an ASCII string: 'A'..'Z' move to 'a'..'z'. *)
Definition ascii_lower_char (c : N) : N :=
  if (65 <=? c) && (c <=? 90) then c + 32 else c.

(** A surrogate code point cannot be encoded as UTF-8. *)
Definition is_surrogate (c : N) : bool := (55296 <=? c) && (c <=? 57343).

Definition utf8_encodable (s : pystr) : bool := forallb (fun c => negb (is_surrogate c)) s.

(** ** Formatting [{n:03d}] *)

Definition decimal (n : nat) : pystr :=
  lit (NilEmpty.string_of_uint (Nat.to_uint n)).

(** Zero-padding on the left up to width three; longer numerals are kept. *)
Definition format_03d (n : nat) : pystr :=
  let ds := decimal n in
  repeat 48 (3 - length ds)%nat ++ ds.

(** ** The interpreter's primitives that the script relies on *)

Class Runtime : Type := {
  (** int and float values as [json.load] builds them *)
  num : Type;
  (** [bool(x)]: false exactly for zero *)
  num_truthy : num -> bool;
  (** [True] and [False] are the numbers 1 and 0 *)
  num_of_bool : bool -> num;
  (** [==] together with [hash], as a set uses them *)
  num_eqb : num -> num -> bool;
  (** [<], as [sorted] uses it *)
  num_ltb : num -> num -> bool;
  (** [str.lower] on a string that is not pure ASCII *)
  unicode_lower : pystr -> pystr
}.

(** Exceptions the script can meet. *)
Inductive exn : Type :=
| JSONDecodeError
| OSError
| UnicodeError
| TypeError
| AttributeError.

Inductive result (A : Type) : Type :=
| Ok (a : A)
| Raise (e : exn).
Arguments Ok {A} a.
Arguments Raise {A} e.

Definition bind {A B : Type} (r : result A) (k : A -> result B) : result B :=
  match r with
  | Ok a => k a
  | Raise e => Raise e
  end.

Notation "x <- r ;;; k" := (bind r (fun x => k))
  (at level 100, r at next level, right associativity).

Section Script.
Context {R : Runtime}.

(** ** JSON values *)

Inductive json : Type :=
| JNull
| JBool (b : bool)
| JNum (n : num)
| JStr (s : pystr)
| JArr (items : list json)
| JObj (fields : list (pystr * json)).

(** [bool(v)], as [if v:] and [not v] use it. *)
Definition truthy (v : json) : bool :=
  match v with
  | JNull => false
  | JBool b => b
  | JNum n => num_truthy n
  | JStr s => match s with [] => false | _ => true end
  | JArr items => match items with [] => false | _ => true end
  | JObj fields => match fields with [] => false | _ => true end
  end.

Definition is_dict (v : json) : bool :=
  match v with JObj _ => true | _ => false end.

(** [d.get(key)] as an option. *)
Fixpoint dict_lookup {V : Type} (d : list (pystr * V)) (key : pystr) : option V :=
  match d with
  | [] => None
  | (k, v) :: d' => if str_eqb k key then Some v else dict_lookup d' key
  end.

(** [d.get(key, default)]. *)
Definition dict_get {V : Type} (d : list (pystr * V)) (key : pystr) (default : V) : V :=
  match dict_lookup d key with
  | Some v => v
  | None => default
  end.

(** [d[key] = v]: an existing key keeps its place, a new key goes last. *)
Fixpoint dict_set {V : Type} (d : list (pystr * V)) (key : pystr) (v : V) : list (pystr * V) :=
  match d with
  | [] => [(key, v)]
  | (k, w) :: d' => if str_eqb k key then (k, v) :: d' else (k, w) :: dict_set d' key v
  end.

(** [s.lower()]. *)
Definition lower (s : pystr) : pystr :=
  if is_ascii s then map ascii_lower_char s else unicode_lower s.

(** [v.lower()] on any value: only a [str] has the method. *)
Definition value_lower (v : json) : result pystr :=
  match v with
  | JStr s => Ok (lower s)
  | _ => Raise AttributeError
  end.

(** ** The taxonomy table *)

Definition SUBSECTION_CODES : list (pystr * list (pystr * pystr)) :=
  [ (lit "Logical Reasoning",
      [ (lit "Assumption", lit "lr-assum");
        (lit "Strengthen", lit "lr-str");
        (lit "Weaken", lit "lr-wk");
        (lit "Flaw in Reasoning", lit "lr-flaw");
        (lit "Inference / Must Be True", lit "lr-infmbt");
        (lit "Point at Issue / Agreement", lit "lr-poi");
        (lit "Method of Reasoning", lit "lr-method");
        (lit "Role of a Statement", lit "lr-role");
        (lit "Parallel Reasoning", lit "lr-preas");
        (lit "Parallel Flaw", lit "lr-pflw");
        (lit "Principle Support", lit "lr-psup");
        (lit "Principle Application", lit "lr-papp");
        (lit "Paradox / Resolve-Explain", lit "lr-paradx") ]);
    (lit "Reading Comprehension",
      [ (lit "Main Point", lit "rc-main");
        (lit "Primary Purpose", lit "rc-pp");
        (lit "Author's Attitude / Tone", lit "rc-att");
        (lit "Passage Organization / Structure", lit "rc-org");
        (lit "Specific Detail", lit "rc-det");
        (lit "Inference", lit "rc-inf");
        (lit "Function / Role of Statement", lit "rc-func");
        (lit "Comparative Passage Analysis", lit "rc-comp") ]);
    (lit "Writing Sample",
      [ (lit "Prompt Text", lit "ws-prompt");
        (lit "Perspectives", lit "ws-persp");
        (lit "Student Response", lit "ws-resp") ]) ].

(** [SUBSECTION_CODES.get(section, {})]: the key is hashed first, and a list
    or a dict has no hash.  A key that is not a [str] is in no entry. *)
Definition codes_of_section (section : json) : result (list (pystr * pystr)) :=
  match section with
  | JArr _ | JObj _ => Raise TypeError
  | JStr sec => Ok (dict_get SUBSECTION_CODES sec [])
  | _ => Ok []
  end.

(** [inner.get(subsection, default)], same remark on the key. *)
Definition code_of_subsection (inner : list (pystr * pystr)) (subsection : json)
    (default : pystr) : result pystr :=
  match subsection with
  | JArr _ | JObj _ => Raise TypeError
  | JStr sub => Ok (dict_get inner sub default)
  | _ => Ok default
  end.

(** [get_standardized_code(section, subsection)].  The default of the inner
    [get] is an argument: it is evaluated on every call, found or not. *)
Definition get_standardized_code (section subsection : json) : result pystr :=
  inner <- codes_of_section section ;;;
  sec_l <- value_lower section ;;;
  sub_l <- value_lower subsection ;;;
  code_of_subsection inner subsection (take 2 sec_l ++ lit "-" ++ take 4 sub_l).

(** ** Files and the questions directory *)

Inductive content : Type :=
| Parsed (document : json)   (* [json.load] returns this value *)
| Malformed                  (* [json.load] raises JSONDecodeError *)
| Undecodable                (* the bytes are not UTF-8: UnicodeDecodeError *)
| Unreadable.                (* [open] fails for reading *)

Record file : Type := {
  fname : pystr;
  fcontent : content;
  fwritable : bool             (* [open(.., 'w')] succeeds *)
}.

(** What [questions_path.glob("*.json")] yields, in its order. *)
Abbreviation directory := (list file).

(** [with open(json_file, 'r', encoding='utf-8') as f: json.load(f)]. *)
Definition load (f : file) : result json :=
  match fcontent f with
  | Parsed document => Ok document
  | Malformed => Raise JSONDecodeError
  | Undecodable => Raise UnicodeError
  | Unreadable => Raise OSError
  end.

(** With [ensure_ascii=False] every string is written as it is, so every
    string and key of the document has to be encodable. *)
Fixpoint json_encodable (j : json) : bool :=
  match j with
  | JStr s => utf8_encodable s
  | JArr items => forallb json_encodable items
  | JObj fields =>
      forallb (fun kv => match kv with (k, v) => utf8_encodable k && json_encodable v end) fields
  | _ => true
  end.

(** [with open(json_file, 'w', encoding='utf-8') as f: json.dump(..)].
    Opening truncates the file; when the encoder then stops on a surrogate
    only a prefix of the document has been written, which is not JSON. *)
Definition dump (f : file) (document : json) : file * option exn :=
  if negb (fwritable f) then (f, Some OSError)
  else if json_encodable document
  then ({| fname := fname f; fcontent := Parsed document; fwritable := true |}, None)
  else ({| fname := fname f; fcontent := Malformed; fwritable := true |}, Some UnicodeError).

(** ** Set keys *)

Inductive pykey : Type :=
| KNone
| KNum (n : num)
| KStr (s : pystr).

Definition key_eqb (a b : pykey) : bool :=
  match a, b with
  | KNone, KNone => true
  | KNum x, KNum y => num_eqb x y
  | KStr s, KStr t => str_eqb s t
  | _, _ => false
  end.

(** [hash(v)]: a list or a dict is unhashable. *)
Definition hash_key (v : json) : result pykey :=
  match v with
  | JNull => Ok KNone
  | JBool b => Ok (KNum (num_of_bool b))
  | JNum n => Ok (KNum n)
  | JStr s => Ok (KStr s)
  | JArr _ | JObj _ => Raise TypeError
  end.

(** A [set], as the list of its members. *)
Definition pyset : Type := list pykey.

Definition set_in (k : pykey) (s : pyset) : bool := existsb (key_eqb k) s.

Definition set_add (k : pykey) (s : pyset) : pyset :=
  if set_in k s then s else s ++ [k].

(** [a < b] between set members: a [str] and a number, or [None] and
    anything, are not ordered. *)
Definition key_ltb (a b : pykey) : result bool :=
  match a, b with
  | KNum x, KNum y => Ok (num_ltb x y)
  | KStr s, KStr t => Ok (str_ltb s t)
  | _, _ => Raise TypeError
  end.

Fixpoint sorted_insert (k : pykey) (ks : list pykey) : result (list pykey) :=
  match ks with
  | [] => Ok [k]
  | h :: ks' =>
      lt <- key_ltb k h ;;;
      if lt then Ok (k :: h :: ks')
      else (rest <- sorted_insert k ks' ;;; Ok (h :: rest))
  end.

(** [sorted(s)]. *)
Fixpoint py_sorted (ks : list pykey) : result (list pykey) :=
  match ks with
  | [] => Ok []
  | k :: ks' => rest <- py_sorted ks' ;;; sorted_insert k rest
  end.

(** ** Console output *)

Inductive event : Type :=
| PrintDirMissing                                            (* line 66 *)
| PrintStart                                                 (* lines 72-73 *)
| PrintProcessing (name : pystr)                             (* line 80 *)
| PrintNotArray (name : pystr)                               (* line 88 *)
| PrintMissing (position : nat)                              (* line 104 *)
| PrintChange (position : nat) (old_id : json) (new_id : pystr)   (* line 119 *)
| PrintUpdated (updated_count questions_in_file : nat)       (* line 125 *)
| PrintJsonError (name : pystr)                              (* line 130 *)
| PrintError (name : pystr) (e : exn)                        (* line 132 *)
| PrintComplete (files_processed total_questions_updated : nat)   (* lines 134-138 *)
| PrintVerifying                                             (* line 145 *)
| PrintCheckError (name : pystr) (e : exn)                   (* line 170 *)
| PrintFound (count : nat)                                   (* line 173 *)
| PrintDuplicate (dup_id : pykey)                            (* line 175 *)
| PrintUnique (count : nat).                                 (* line 177 *)

(** ** [standardize_question_ids] *)

Definition excluded (name : pystr) : bool :=
  str_eqb name (lit "lsat_taxonomy_2025.json")
  || str_eqb name (lit "universal_question_schema.json").

(** [old_id != new_id], where [new_id] is a [str]. *)
Definition differs (old_id : json) (new_id : pystr) : bool :=
  match old_id with
  | JStr s => negb (str_eqb s new_id)
  | _ => true
  end.

(** [print(f"{v}")] succeeds: [str] of a string is the string itself, which
    the console has to encode; numbers, [None] and booleans are written in
    ASCII, and a list or a dict is written with the [repr] of its strings,
    which escapes what cannot be encoded. *)
Definition printable (v : json) : bool :=
  match v with
  | JStr s => utf8_encodable s
  | _ => true
  end.

(** One turn of the loop of lines 95-119, at index [i].  The record is
    assigned and the count incremented before the example line is printed,
    so they are as line 117 left them when that [print] raises. *)
Definition assign_question (i : nat) (question : json) (updated : nat)
    : json * nat * list event * option exn :=
  match question with
  | JObj fields =>
      let section := dict_get fields (lit "section") (JStr []) in
      let subsection := dict_get fields (lit "subsection") (JStr []) in
      if negb (truthy section) || negb (truthy subsection)
      then (question, updated, [PrintMissing (i + 1)], None)
      else
        match get_standardized_code section subsection with
        | Raise e => (question, updated, [], Some e)
        | Ok code =>
            let new_id := code ++ lit "-" ++ format_03d (i + 1) in
            let old_id := dict_get fields (lit "question_id") (JStr (lit "missing")) in
            let question' := JObj (dict_set fields (lit "question_id") (JStr new_id)) in
            if differs old_id new_id
            then
              if (S updated <=? 3)%nat
              then
                if printable old_id && utf8_encodable new_id
                then (question', S updated, [PrintChange (i + 1) old_id new_id], None)
                else (question', S updated, [], Some UnicodeError)
              else (question', S updated, [], None)
            else (question', updated, [], None)
        end
  | _ => (question, updated, [], None)
  end.

(** [for i, question in enumerate(questions)], from index [i] on.  When a
    turn raises, the records after it are as they were. *)
Fixpoint assign_questions (i : nat) (questions : list json) (updated : nat)
    : list json * nat * list event * option exn :=
  match questions with
  | [] => ([], updated, [], None)
  | question :: rest =>
      match assign_question i question updated with
      | (question', updated', out, Some e) => (question' :: rest, updated', out, Some e)
      | (question', updated', out, None) =>
          match assign_questions (S i) rest updated' with
          | (rest', updated'', out', err) => (question' :: rest', updated'', out ++ out', err)
          end
      end
  end.

(** The two handlers of lines 129-132. *)
Definition on_error (name : pystr) (e : exn) : event :=
  match e with
  | JSONDecodeError => PrintJsonError name
  | _ => PrintError name e
  end.

(** The body of the loop over files, lines 80-132: the file as it is on disk
    afterwards, what was printed, and [Some updated_count] when the file
    reached line 126 and was counted as processed. *)
Definition process_file (f : file) : file * list event * option nat :=
  match load f with
  | Raise e => (f, [PrintProcessing (fname f); on_error (fname f) e], None)
  | Ok (JArr questions) =>
      match assign_questions 0 questions 0 with
      | (_, _, out, Some e) =>
          (f, PrintProcessing (fname f) :: out ++ [on_error (fname f) e], None)
      | (questions', updated, out, None) =>
          match dump f (JArr questions') with
          | (f', Some e) =>
              (f', PrintProcessing (fname f) :: out ++ [on_error (fname f) e], None)
          | (f', None) =>
              (f', PrintProcessing (fname f) :: out
                   ++ [PrintUpdated updated (length questions)], Some updated)
          end
      end
  | Ok _ => (f, [PrintProcessing (fname f); PrintNotArray (fname f)], None)
  end.

Record tally : Type := {
  files_processed : nat;
  total_questions_updated : nat
}.

Definition count_file (t : tally) (outcome : option nat) : tally :=
  match outcome with
  | Some updated =>
      {| files_processed := files_processed t + 1;
         total_questions_updated := total_questions_updated t + updated |}
  | None => t
  end.

(** [for json_file in questions_path.glob("*.json")], lines 76-132. *)
Fixpoint process_files (dir : directory) (t : tally) : directory * tally * list event :=
  match dir with
  | [] => ([], t, [])
  | f :: rest =>
      if excluded (fname f)
      then match process_files rest t with
           | (rest', t', out) => (f :: rest', t', out)
           end
      else match process_file f with
           | (f', out, outcome) =>
               match process_files rest (count_file t outcome) with
               | (rest', t', out') => (f' :: rest', t', out ++ out')
               end
           end
  end.

(** ** [verify_no_duplicates] *)

(** The two sets of lines 147-148. *)
Record id_sets : Type := {
  all_ids : pyset;
  duplicate_ids : pyset
}.

(** [for question in questions] on whatever [json.load] returned: a list
    gives its items, a dict its keys, a [str] its characters; nothing else
    can be iterated. *)
Definition iterate (questions : json) : result (list json) :=
  match questions with
  | JArr items => Ok items
  | JObj fields => Ok (map (fun kv => JStr (fst kv)) fields)
  | JStr s => Ok (map (fun c => JStr [c]) s)
  | _ => Raise TypeError
  end.

(** One turn of the loop of lines 160-167. *)
Definition check_question (question : json) (st : id_sets) : id_sets * option exn :=
  match question with
  | JObj fields =>
      let qid := dict_get fields (lit "question_id") JNull in
      if truthy qid
      then match hash_key qid with
           | Raise e => (st, Some e)
           | Ok k =>
               if set_in k (all_ids st)
               then ({| all_ids := all_ids st;
                        duplicate_ids := set_add k (duplicate_ids st) |}, None)
               else ({| all_ids := set_add k (all_ids st);
                        duplicate_ids := duplicate_ids st |}, None)
           end
      else (st, None)
  | _ => (st, None)
  end.

(** The sets keep what was added before a turn raised. *)
Fixpoint check_questions (questions : list json) (st : id_sets) : id_sets * option exn :=
  match questions with
  | [] => (st, None)
  | question :: rest =>
      match check_question question st with
      | (st', Some e) => (st', Some e)
      | (st', None) => check_questions rest st'
      end
  end.

(** The [try] block of lines 156-170 for one file. *)
Definition check_file (f : file) (st : id_sets) : id_sets * list event :=
  match (questions <- load f ;;; iterate questions) with
  | Raise e => (st, [PrintCheckError (fname f) e])
  | Ok items =>
      match check_questions items st with
      | (st', Some e) => (st', [PrintCheckError (fname f) e])
      | (st', None) => (st', [])
      end
  end.

Fixpoint check_files (dir : directory) (st : id_sets) : id_sets * list event :=
  match dir with
  | [] => (st, [])
  | f :: rest =>
      if excluded (fname f) then check_files rest st
      else match check_file f st with
           | (st', out) =>
               match check_files rest st' with
               | (st'', out') => (st'', out ++ out')
               end
           end
  end.

(** [print(f"   - {dup_id}")] for a set member. *)
Definition key_printable (k : pykey) : bool :=
  match k with
  | KStr s => utf8_encodable s
  | _ => true
  end.

(** The loop of lines 174-175 over the sorted duplicates: it stops at the
    first one that cannot be printed. *)
Fixpoint print_duplicates (ids : list pykey) : list event * option exn :=
  match ids with
  | [] => ([], None)
  | dup_id :: rest =>
      if key_printable dup_id
      then match print_duplicates rest with
           | (out, err) => (PrintDuplicate dup_id :: out, err)
           end
      else ([], Some UnicodeError)
  end.

(** Lines 172-177.  [sorted] and the prints are outside every [try]: their
    exception leaves the function. *)
Definition report_duplicates (st : id_sets) : list event * option exn :=
  match duplicate_ids st with
  | [] => ([PrintUnique (length (all_ids st))], None)
  | _ =>
      match py_sorted (duplicate_ids st) with
      | Ok ids =>
          match print_duplicates ids with
          | (out, err) => (PrintFound (length (duplicate_ids st)) :: out, err)
          end
      | Raise e => ([PrintFound (length (duplicate_ids st))], Some e)
      end
  end.

Definition scan (dir : directory) : id_sets * list event :=
  check_files dir {| all_ids := []; duplicate_ids := [] |}.

Definition verify_no_duplicates (dir : directory) : list event * option exn :=
  match scan dir with
  | (st, out) =>
      match report_duplicates st with
      | (out', err) => (PrintVerifying :: out ++ out', err)
      end
  end.

(** ** The whole pass *)

(** [None] stands for a [QUESTIONS_DIR] that does not exist.  The result is
    the directory afterwards, the console output, and the exception that
    left the function, if any. *)
Definition standardize_question_ids (fs : option directory)
    : option directory * list event * option exn :=
  match fs with
  | None => (None, [PrintDirMissing], None)
  | Some dir =>
      match process_files dir {| files_processed := 0; total_questions_updated := 0 |} with
      | (dir', t, out) =>
          match verify_no_duplicates dir' with
          | (out', err) =>
              (Some dir',
               PrintStart :: out
                 ++ PrintComplete (files_processed t) (total_questions_updated t) :: out',
               err)
          end
      end
  end.

(** ** Vocabulary of the properties *)

(** The directory after the pass, and what the pass printed. *)
Definition files_after (fs : option directory) : option directory :=
  fst (fst (standardize_question_ids fs)).

Definition output (fs : option directory) : list event :=
  snd (fst (standardize_question_ids fs)).

Definition uncaught (fs : option directory) : option exn :=
  snd (standardize_question_ids fs).

(** A file is processed when the pass reaches line 126 for it. *)
Definition processed (f : file) : bool :=
  match snd (process_file f) with
  | Some _ => true
  | None => false
  end.

(** The records of a file: the items of the array it holds. *)
Definition records_of (f : file) : list json :=
  match fcontent f with
  | Parsed (JArr items) => items
  | _ => []
  end.

(** Record [i] of file [k] of a directory, and its [question_id]. *)
Definition record_in (fs : option directory) (k i : nat) : option json :=
  match fs with
  | Some dir =>
      match dir !! k with
      | Some f => records_of f !! i
      | None => None
      end
  | None => None
  end.

Definition question_id_in (fs : option directory) (k i : nat) : option json :=
  match record_in fs k i with
  | Some (JObj fields) => dict_lookup fields (lit "question_id")
  | _ => None
  end.

Definition record_after (fs : option directory) (k i : nat) : option json :=
  record_in (files_after fs) k i.

Definition question_id_after (fs : option directory) (k i : nat) : option json :=
  question_id_in (files_after fs) k i.

(** What one file becomes on disk. *)
Definition standardize_file (f : file) : file :=
  if excluded (fname f) then f else fst (fst (process_file f)).

Definition section_of (fields : list (pystr * json)) : json :=
  dict_get fields (lit "section") (JStr []).

Definition subsection_of (fields : list (pystr * json)) : json :=
  dict_get fields (lit "subsection") (JStr []).

(** A record that has both classification fields. *)
Definition classified (question : json) : bool :=
  match question with
  | JObj fields => truthy (section_of fields) && truthy (subsection_of fields)
  | _ => false
  end.

(** The index written as exactly three digits. *)
Definition three_digits (n : nat) : pystr :=
  [48 + N.of_nat (n / 100 mod 10); 48 + N.of_nat (n / 10 mod 10); 48 + N.of_nat (n mod 10)].

(** The record a successful turn at index [i] leaves in memory. *)
Definition assigned (i : nat) (question : json) : json :=
  fst (fst (fst (assign_question i question 0))).

(** The fields of a record other than [question_id], in order. *)
Definition other_fields (fields : list (pystr * json)) : list (pystr * json) :=
  filter (fun kv => str_eqb (fst kv) (lit "question_id") = false) fields.

(** All records of the files that are not excluded, in scan order. *)
Definition corpus_records (dir : directory) : list json :=
  flat_map records_of (List.filter (fun f => negb (excluded (fname f))) dir).

(** The record carries the ID string [s]. *)
Definition has_id (s : pystr) (question : json) : bool :=
  match question with
  | JObj fields =>
      match dict_lookup fields (lit "question_id") with
      | Some (JStr t) => str_eqb t s
      | _ => false
      end
  | _ => false
  end.

Definition occurrences (s : pystr) (records : list json) : nat :=
  length (List.filter (has_id s) records).

(** The [question_id] of the record can be a set member. *)
Definition id_hashable (question : json) : bool :=
  match question with
  | JObj fields =>
      match dict_lookup fields (lit "question_id") with
      | Some (JArr (_ :: _)) | Some (JObj (_ :: _)) => false
      | _ => true
      end
  | _ => true
  end.

(** The record has no [question_id], or [None], or the empty string. *)
Definition lacks_id (question : json) : bool :=
  match question with
  | JObj fields =>
      match dict_lookup fields (lit "question_id") with
      | None | Some JNull | Some (JStr []) => true
      | _ => false
      end
  | _ => false
  end.

(** The record is classified and the ID computed for it at index [i] is not
    the ID it has; a record without [question_id] has no ID at all. *)
Definition changes (i : nat) (question : json) : bool :=
  match question with
  | JObj fields =>
      classified question &&
      match get_standardized_code (section_of fields) (subsection_of fields) with
      | Ok code =>
          match dict_lookup fields (lit "question_id") with
          | Some (JStr old_id) => negb (str_eqb old_id (code ++ lit "-" ++ format_03d (i + 1)))
          | _ => true
          end
      | Raise _ => false
      end
  | _ => false
  end.

(** The number of records whose new ID differs from the old one. *)
Fixpoint changed_count (i : nat) (questions : list json) : nat :=
  match questions with
  | [] => 0
  | question :: rest =>
      ((if changes i question then 1 else 0) + changed_count (S i) rest)%nat
  end.

(** The two records agree on every field other than [question_id]. *)
Definition same_payload (question question' : json) : Prop :=
  match question, question' with
  | JObj fields, JObj fields' =>
      other_fields fields' = other_fields fields
      ∧ ∀ key, key ≠ lit "question_id" → dict_lookup fields' key = dict_lookup fields key
  | _, _ => question' = question
  end.

(** The changed IDs of one file, and the two totals of the final report. *)
Definition changed_in_file (f : file) : nat :=
  if excluded (fname f) then 0
  else if processed f then changed_count 0 (records_of f) else 0.

Fixpoint total_changed (dir : directory) : nat :=
  match dir with
  | [] => 0
  | f :: rest => (changed_in_file f + total_changed rest)%nat
  end.

Fixpoint count_processed (dir : directory) : nat :=
  match dir with
  | [] => 0
  | f :: rest =>
      ((if excluded (fname f) then 0 else if processed f then 1 else 0)
       + count_processed rest)%nat
  end.

(** The key is a [str]. *)
Definition is_str_key (k : pykey) : bool :=
  match k with KStr _ => true | _ => false end.

(** The last lines of the verification for given sets: the count of distinct
    IDs, or the duplicates in order. *)
Definition summary (st : id_sets) : list event :=
  fst (report_duplicates st).

(** Keys that are never members: [None] and the empty string. *)
Definition no_absent_key (st : id_sets) : Prop :=
  set_in KNone (all_ids st) = false
  ∧ set_in (KStr []) (all_ids st) = false
  ∧ set_in KNone (duplicate_ids st) = false
  ∧ set_in (KStr []) (duplicate_ids st) = false.

(** The pairs of the taxonomy table with their codes. *)
Definition taxonomy_pairs : list (pystr * pystr * pystr) :=
  flat_map (fun entry => map (fun sc => (fst entry, fst sc, snd sc)) (snd entry))
           SUBSECTION_CODES.

End Script.

Abbreviation directory := (list file).

(** ** [generate_summary_report] and the script's entry point *)

Section Summary.
Context {R : Runtime}.

(** The exceptions of the report: those the pass knows, and the two that
    indexing adds. *)
Inductive report_exn : Type :=
| Script (e : exn)
| KeyError
| IndexError.

Inductive attempt (A : Type) : Type :=
| Got (a : A)
| Failed (e : report_exn).
Arguments Got {A} a.
Arguments Failed {A} e.

Definition and_then {A B : Type} (r : attempt A) (k : A -> attempt B) : attempt B :=
  match r with
  | Got a => k a
  | Failed e => Failed e
  end.

Definition of_result {A : Type} (r : result A) : attempt A :=
  match r with
  | Ok a => Got a
  | Raise e => Failed (Script e)
  end.

(** [len(v)]: lists, dicts and strings have a length. *)
Definition py_len (v : json) : attempt nat :=
  match v with
  | JArr items => Got (length items)
  | JObj fields => Got (length fields)
  | JStr s => Got (length s)
  | _ => Failed (Script TypeError)
  end.

(** [v[0]]: the keys of a loaded dict are strings, so the key [0] is absent. *)
Definition first_item (v : json) : attempt json :=
  match v with
  | JArr (x :: _) => Got x
  | JStr (c :: _) => Got (JStr [c])
  | JArr [] | JStr [] => Failed IndexError
  | JObj _ => Failed KeyError
  | _ => Failed (Script TypeError)
  end.

(** [v[-1]]. *)
Definition last_item (v : json) : attempt json :=
  match v with
  | JArr (x :: items) => Got (List.last items x)
  | JStr (c :: s) => Got (JStr [List.last s c])
  | JArr [] | JStr [] => Failed IndexError
  | JObj _ => Failed KeyError
  | _ => Failed (Script TypeError)
  end.

(** [v.get(key, default)]: only a dict has the method. *)
Definition value_get (v : json) (key : pystr) (default : json) : attempt json :=
  match v with
  | JObj fields => Got (dict_get fields key default)
  | _ => Failed (Script AttributeError)
  end.

(** [item.get(key, 'N/A') if questions else 'N/A']. *)
Definition field_or_na (questions : json) (item : attempt json) (key : pystr)
    : attempt json :=
  if truthy questions
  then and_then item (fun x => value_get x key (JStr (lit "N/A")))
  else Got (JStr (lit "N/A")).

(** The dict of lines 195-202. *)
Record file_info : Type := {
  info_file : pystr;
  info_count : nat;
  info_first_id : json;
  info_last_id : json;
  info_section : json;
  info_subsection : json
}.

(** Lines 195-202: the entries are evaluated in the order they are written. *)
Definition file_info_of (name : pystr) (questions : json) : attempt file_info :=
  and_then (py_len questions) (fun count =>
  and_then (field_or_na questions (first_item questions) (lit "question_id")) (fun first_id =>
  and_then (field_or_na questions (last_item questions) (lit "question_id")) (fun last_id =>
  and_then (field_or_na questions (first_item questions) (lit "section")) (fun section =>
  and_then (field_or_na questions (first_item questions) (lit "subsection")) (fun subsection =>
  Got {| info_file := name;
         info_count := count;
         info_first_id := first_id;
         info_last_id := last_id;
         info_section := section;
         info_subsection := subsection |}))))).

(** The [try] block of lines 191-205 up to the two assignments. *)
Definition summarize (f : file) : attempt file_info :=
  and_then (of_result (load f)) (file_info_of (fname f)).

(** What the report prints. *)
Inductive report_event : Type :=
| PrintGenerating                                            (* line 181 *)
| PrintReadError (name : pystr) (e : report_exn)             (* line 208 *)
| PrintTotals (files questions : nat)                        (* lines 211-215 *)
| PrintRow (name : pystr) (count : nat) (first_id last_id : json).   (* line 218 *)

(** [report] and [total_questions] of lines 184-185. *)
Record report_state : Type := {
  report : list (pystr * file_info);
  total_questions : nat
}.

(** The loop of lines 187-208. *)
Fixpoint summarize_files (dir : directory) (st : report_state)
    : report_state * list report_event :=
  match dir with
  | [] => (st, [])
  | f :: rest =>
      if excluded (fname f) then summarize_files rest st
      else match summarize f with
           | Got info =>
               summarize_files rest
                 {| report := dict_set (report st) (fname f) info;
                    total_questions := total_questions st + info_count info |}
           | Failed e =>
               match summarize_files rest st with
               | (st', out) => (st', PrintReadError (fname f) e :: out)
               end
           end
  end.

(** [sorted(report.items())]: the items are pairs that begin with a file
    name, and no two items of a dict have the same name, so the names
    decide the order. *)
Fixpoint insert_row (row : pystr * file_info) (rows : list (pystr * file_info))
    : list (pystr * file_info) :=
  match rows with
  | [] => [row]
  | h :: rows' =>
      if str_ltb (fst row) (fst h) then row :: h :: rows'
      else h :: insert_row row rows'
  end.

Fixpoint sorted_rows (rows : list (pystr * file_info)) : list (pystr * file_info) :=
  match rows with
  | [] => []
  | row :: rows' => insert_row row (sorted_rows rows')
  end.

Definition print_row (row : pystr * file_info) : report_event :=
  PrintRow (fst row) (info_count (snd row))
           (info_first_id (snd row)) (info_last_id (snd row)).

(** The row of line 218 can be printed: its two IDs are written with [str]. *)
Definition row_printable (row : pystr * file_info) : bool :=
  printable (info_first_id (snd row)) && printable (info_last_id (snd row)).

(** The loop of lines 217-218, outside every [try]: it stops at the first
    row that cannot be printed. *)
Fixpoint print_rows (rows : list (pystr * file_info)) : list report_event * option exn :=
  match rows with
  | [] => ([], None)
  | row :: rest =>
      if row_printable row
      then match print_rows rest with
           | (out, err) => (print_row row :: out, err)
           end
      else ([], Some UnicodeError)
  end.

(** [generate_summary_report], on what [glob] lists: what it prints, and the
    dict it returns or the exception that leaves it. *)
Definition generate_summary_report (dir : directory)
    : list report_event * result (list (pystr * file_info)) :=
  match summarize_files dir {| report := []; total_questions := 0 |} with
  | (st, out) =>
      match print_rows (sorted_rows (report st)) with
      | (rows_out, err) =>
          (PrintGenerating :: out
             ++ PrintTotals (length (report st)) (total_questions st) :: rows_out,
           match err with
           | None => Ok (report st)
           | Some e => Raise e
           end)
      end
  end.

(** What the whole script prints. *)
Inductive main_event : Type :=
| FromPass (e : event)
| FromReport (e : report_event)
| PrintReady.                                                (* line 229 *)

(** [glob] over a directory that does not exist lists nothing. *)
Definition listing (fs : option directory) : directory :=
  match fs with
  | Some dir => dir
  | None => []
  end.

(** Lines 222-229.  An exception that leaves the pass or the report ends
    the script. *)
Definition main (fs : option directory)
    : option directory * list main_event * option exn :=
  match standardize_question_ids fs with
  | (fs', out, Some e) => (fs', map FromPass out, Some e)
  | (fs', out, None) =>
      match generate_summary_report (listing fs') with
      | (out', Raise e) => (fs', map FromPass out ++ map FromReport out', Some e)
      | (out', Ok _) =>
          (fs', map FromPass out ++ map FromReport out' ++ [PrintReady], None)
      end
  end.

(** ** Vocabulary of the further properties *)

(** The value of a string of decimal digits, most significant first. *)
Fixpoint digits_value (acc : nat) (ds : pystr) : nat :=
  match ds with
  | [] => acc
  | c :: ds' => digits_value (10 * acc + N.to_nat (c - 48)) ds'
  end.

Definition is_digit (c : N) : bool := (48 <=? c) && (c <=? 57).

(** The record carries an ID that the verification looks at. *)
Definition carries_id (question : json) : bool :=
  match question with
  | JObj fields => truthy (dict_get fields (lit "question_id") JNull)
  | _ => false
  end.

(** The first and the last element of a non-empty list are dicts. *)
Definition ends_are_dicts (questions : list json) : bool :=
  match questions with
  | [] => true
  | x :: items => is_dict x && is_dict (List.last items x)
  end.

(** The sum of the counts of the rows of a report. *)
Fixpoint sum_counts (rows : list (pystr * file_info)) : nat :=
  match rows with
  | [] => 0
  | row :: rows' => (info_count (snd row) + sum_counts rows')%nat
  end.

(** The files the report has a row for. *)
Definition summarized (f : file) : bool :=
  negb (excluded (fname f)) &&
  match summarize f with
  | Got _ => true
  | Failed _ => false
  end.


(** What the sets say about strings is backed by the records seen so far. *)
Definition backed_by (st : id_sets) (seen : list json) : Prop :=
  (∀ s, set_in (KStr s) (all_ids st) = true → (1 ≤ occurrences s seen)%nat)
  ∧ (∀ s, set_in (KStr s) (duplicate_ids st) = true →
       (2 ≤ occurrences s seen)%nat ∧ set_in (KStr s) (all_ids st) = true).


(** The rows of the report for a directory: one for each file that is not
    excluded and can be summarized. *)
Fixpoint rows_of (dir : directory) : list (pystr * file_info) :=
  match dir with
  | [] => []
  | f :: rest =>
      if excluded (fname f) then rows_of rest
      else match summarize f with
           | Got info => (fname f, info) :: rows_of rest
           | Failed _ => rows_of rest
           end
  end.

Definition row_le (a b : pystr * file_info) : Prop := str_ltb (fst b) (fst a) = false.

(** The entry of the report for an array of records that begins with the
    dict [first] and ends with the dict [final]. *)
Definition info_of_ends (name : pystr) (count : nat)
    (first final : list (pystr * json)) : file_info :=
  {| info_file := name;
     info_count := count;
     info_first_id := dict_get first (lit "question_id") (JStr (lit "N/A"));
     info_last_id := dict_get final (lit "question_id") (JStr (lit "N/A"));
     info_section := dict_get first (lit "section") (JStr (lit "N/A"));
     info_subsection := dict_get first (lit "subsection") (JStr (lit "N/A")) |}.

(** The entry of the report for an empty file. *)
Definition info_of_empty (name : pystr) : file_info :=
  {| info_file := name;
     info_count := 0;
     info_first_id := JStr (lit "N/A");
     info_last_id := JStr (lit "N/A");
     info_section := JStr (lit "N/A");
     info_subsection := JStr (lit "N/A") |}.

Definition is_str (v : json) : bool :=
  match v with JStr _ => true | _ => false end.

Definition is_change (ev : event) : bool :=
  match ev with PrintChange _ _ _ => true | _ => false end.

Definition is_missing (ev : event) : bool :=
  match ev with PrintMissing _ => true | _ => false end.

(** A dict without one of its classification fields. *)
Definition unclassified_dict (question : json) : bool :=
  is_dict question && negb (classified question).

End Summary.

Arguments Got {A} a.
Arguments Failed {A} e.

(** A runtime for test vectors: numbers are Python ints, and text is ASCII
    (the Unicode case mapping is never reached on such text). *)
#[export] Instance int_runtime : Runtime := {|
  num := Z;
  num_truthy := fun z => negb (z =? 0)%Z;
  num_of_bool := fun b => if b then 1%Z else 0%Z;
  num_eqb := Z.eqb;
  num_ltb := Z.ltb;
  unicode_lower := fun s => s
|}.

(** ** Test vectors *)

(** A question record with its classification and some payload. *)
Definition record (question_id section subsection : string) : json :=
  JObj [ (lit "question_id", JStr (lit question_id));
         (lit "section", JStr (lit section));
         (lit "subsection", JStr (lit subsection));
         (lit "difficulty", JNum 3%Z);
         (lit "content", JStr (lit "Which one of the following ..."));
         (lit "tags", JArr [JStr (lit "lsat")]) ].

(** A record without classification. *)
Definition unclassified (question_id : json) : json :=
  JObj [ (lit "question_id", question_id);
         (lit "content", JStr (lit "draft")) ].

Definition json_file (name : string) (questions : list json) : file :=
  {| fname := lit name; fcontent := Parsed (JArr questions); fwritable := true |}.

(** The record of the specification's first example, fifth in its file. *)
Definition strengthen_file : file :=
  json_file "strengthen.json"
    [ record "lr-str-001" "Logical Reasoning" "Strengthen";
      record "x-2" "Logical Reasoning" "Strengthen";
      unclassified (JStr (lit "draft-7"));
      record "lr-str-004" "Logical Reasoning" "Strengthen";
      record "old-1" "Logical Reasoning" "Strengthen" ].

(** A file of a thousand records of one taxonomy pair. *)
Definition thousand_file : file :=
  json_file "thousand.json"
    (repeat (record "old" "Logical Reasoning" "Strengthen") 1000).

(** The specification's second example: an unknown pair, second in its file. *)
Definition unknown_pair_file : file :=
  json_file "misc.json"
    [ record "m-1" "Writing Sample" "Perspectives";
      JObj [ (lit "section", JStr (lit "Foo"));
             (lit "subsection", JStr (lit "Barbaz")) ] ].

(** A file whose second record has a number where the section should be. *)
Definition broken_file : file :=
  json_file "broken.json"
    [ record "old-1" "Reading Comprehension" "Inference";
      JObj [ (lit "question_id", JStr (lit "old-2"));
             (lit "section", JNum 5%Z);
             (lit "subsection", JStr (lit "Inference")) ];
      record "old-3" "Reading Comprehension" "Inference" ].

(** Two files of the same taxonomy pair: their first records collide. *)
Definition weaken_file_a : file :=
  json_file "weaken-a.json" [ record "a-1" "Logical Reasoning" "Weaken" ].

Definition weaken_file_b : file :=
  json_file "weaken-b.json"
    [ record "b-1" "Logical Reasoning" "Weaken";
      record "b-2" "Logical Reasoning" "Weaken" ].

(** Unclassified records that share an empty ID. *)
Definition blank_ids_file : file :=
  json_file "blank.json" [ unclassified (JStr []); unclassified (JStr []) ].

(** An unclassified record whose ID is a list, before two that share an ID. *)
Definition list_id_file : file :=
  json_file "list-id.json"
    [ unclassified (JArr [JNum 1%Z]);
      unclassified (JStr (lit "dup"));
      unclassified (JStr (lit "dup")) ].

(** Unclassified records without ID, with [null] and with the empty string. *)
Definition absent_ids_file : file :=
  json_file "absent.json"
    [ JObj [ (lit "content", JStr (lit "draft")) ];
      unclassified JNull;
      unclassified (JStr []);
      JObj [ (lit "content", JStr (lit "draft")) ];
      unclassified JNull ].

(** Unclassified records whose duplicated IDs are a number and a string. *)
Definition mixed_ids_file : file :=
  json_file "mixed.json"
    [ unclassified (JNum 7%Z); unclassified (JNum 7%Z);
      unclassified (JStr (lit "a")); unclassified (JStr (lit "a")) ].

(** Files that cannot be loaded. *)
Definition malformed_file : file :=
  {| fname := lit "malformed.json"; fcontent := Malformed; fwritable := true |}.

Definition undecodable_file : file :=
  {| fname := lit "latin1.json"; fcontent := Undecodable; fwritable := true |}.


(** A file that begins with a note instead of a record, an empty file, and a
    file that holds an object. *)
Definition note_first_file : file :=
  json_file "notes.json"
    [ JStr (lit "exported 2025-01-01");
      record "n-1" "Writing Sample" "Prompt Text" ].

Definition empty_file : file := json_file "empty.json" [].

Definition object_file : file :=
  {| fname := lit "index.json";
     fcontent := Parsed (JObj [ (lit "version", JNum 2%Z) ]);
     fwritable := true |}.

(** A classified record with any value as its old ID. *)
Definition record_with_id (question_id : json) (section subsection : string) : json :=
  JObj [ (lit "question_id", question_id);
         (lit "section", JStr (lit section));
         (lit "subsection", JStr (lit subsection)) ].

(** A file whose first record has a lone surrogate, U+D800, as its old ID,
    before an unclassified record. *)
Definition surrogate_id_file : file :=
  json_file "surrogate.json"
    [ record_with_id (JStr [55296]) "Logical Reasoning" "Weaken";
      unclassified (JStr (lit "draft-2")) ].


(** * Properties *)

Section Strings.

Lemma str_eqb_eq (s t : pystr) : str_eqb s t = true ↔ s = t.
Proof.
  revert t. induction s as [|c s IH]; intros [|d t]; simpl; try (split; congruence).
  rewrite andb_true_iff, N.eqb_eq, IH. split.
  - intros [-> ->]. reflexivity.
  - intros [= -> ->]. split; reflexivity.
Qed.

Lemma str_eqb_refl (s : pystr) : str_eqb s s = true.
Proof. apply str_eqb_eq. reflexivity. Qed.

Lemma str_eqb_neq (s t : pystr) : str_eqb s t = false ↔ s ≠ t.
Proof.
  rewrite <- str_eqb_eq. destruct (str_eqb s t); split; congruence.
Qed.

Lemma format_03d_small (n : nat) : (n ≤ 999)%nat → format_03d n = three_digits n.
Proof.
  intros Hn.
  assert (Hall : forallb (fun m => str_eqb (format_03d m) (three_digits m)) (seq 0 1000) = true)
    by (vm_compute; reflexivity).
  rewrite forallb_forall in Hall.
  apply str_eqb_eq, Hall, in_seq. lia.
Qed.

End Strings.

Section Dicts.
Context {V : Type}.
Implicit Types (d : list (pystr * V)) (k : pystr) (v : V).

Lemma dict_lookup_set_eq d k v : dict_lookup (dict_set d k v) k = Some v.
Proof.
  induction d as [|[k' w] d IH]; simpl.
  - rewrite str_eqb_refl. reflexivity.
  - destruct (str_eqb k' k) eqn:E; simpl; rewrite E; auto.
Qed.

Lemma dict_lookup_set_ne d k k' v :
  k ≠ k' → dict_lookup (dict_set d k v) k' = dict_lookup d k'.
Proof.
  intros Hne. induction d as [|[k0 w] d IH]; simpl.
  - apply str_eqb_neq in Hne. rewrite Hne. reflexivity.
  - destruct (str_eqb k0 k) eqn:E; simpl.
    + apply str_eqb_eq in E. subst k0.
      apply str_eqb_neq in Hne. rewrite Hne. reflexivity.
    + rewrite IH. reflexivity.
Qed.

Lemma dict_get_set_ne d k k' v default :
  k ≠ k' → dict_get (dict_set d k v) k' default = dict_get d k' default.
Proof. intros Hne. unfold dict_get. rewrite dict_lookup_set_ne; auto. Qed.

Lemma dict_set_twice d k v w : dict_set (dict_set d k v) k w = dict_set d k w.
Proof.
  induction d as [|[k' u] d IH]; simpl.
  - rewrite str_eqb_refl. reflexivity.
  - destruct (str_eqb k' k) eqn:E; simpl; rewrite E; congruence.
Qed.

Lemma dict_lookup_In d k v : dict_lookup d k = Some v → In (k, v) d.
Proof.
  induction d as [|[k' w] d IH]; simpl; [discriminate|].
  destruct (str_eqb k' k) eqn:E.
  - apply str_eqb_eq in E. intros [= ->]. left. congruence.
  - intros H. right. auto.
Qed.

End Dicts.

Section Assignment.
Context {R : Runtime}.
Implicit Types (fields : list (pystr * json)) (question : json) (i updated : nat).

Lemma other_fields_set fields v :
  other_fields (dict_set fields (lit "question_id") v) = other_fields fields.
Proof.
  unfold other_fields. generalize (lit "question_id"). intros key.
  induction fields as [|[k w] fields IH]; cbn [dict_set].
  - rewrite filter_cons. cbn [fst]. rewrite str_eqb_refl.
    rewrite decide_False by discriminate. reflexivity.
  - destruct (str_eqb k key) eqn:E.
    + rewrite !filter_cons. cbn [fst]. rewrite E.
      rewrite !decide_False by discriminate. reflexivity.
    + rewrite !filter_cons. cbn [fst]. rewrite E.
      rewrite !decide_True by reflexivity. f_equal. exact IH.
Qed.

(** The three ways a turn of the loop can go for a dict. *)
Lemma assign_question_skip i fields updated :
  classified (JObj fields) = false →
  assign_question i (JObj fields) updated
  = (JObj fields, updated, [PrintMissing (i + 1)], None).
Proof.
  unfold classified, section_of, subsection_of, assign_question. intros H.
  apply andb_false_iff in H.
  destruct H as [-> | ->]; simpl; [reflexivity|].
  rewrite orb_true_r. reflexivity.
Qed.

Lemma assign_question_raise i fields updated e :
  classified (JObj fields) = true →
  get_standardized_code (section_of fields) (subsection_of fields) = Raise e →
  assign_question i (JObj fields) updated = (JObj fields, updated, [], Some e).
Proof.
  unfold classified, section_of, subsection_of, assign_question. intros H Hc.
  apply andb_true_iff in H. destruct H as [-> ->]. simpl. rewrite Hc. reflexivity.
Qed.

Lemma assign_question_ok i fields updated code :
  classified (JObj fields) = true →
  get_standardized_code (section_of fields) (subsection_of fields) = Ok code →
  let new_id := code ++ lit "-" ++ format_03d (i + 1) in
  let old_id := dict_get fields (lit "question_id") (JStr (lit "missing")) in
  let shown := differs old_id new_id && (S updated <=? 3)%nat in
  let fits := printable old_id && utf8_encodable new_id in
  assign_question i (JObj fields) updated
  = (JObj (dict_set fields (lit "question_id") (JStr new_id)),
     if differs old_id new_id then S updated else updated,
     if shown && fits then [PrintChange (i + 1) old_id new_id] else [],
     if shown && negb fits then Some UnicodeError else None).
Proof.
  unfold classified, section_of, subsection_of, assign_question. intros H Hc.
  apply andb_true_iff in H. destruct H as [-> ->]. cbn [negb orb]. rewrite Hc.
  cbn zeta.
  destruct (differs _ _); [|reflexivity].
  destruct (S updated <=? 3)%nat; [|reflexivity].
  destruct (printable _ && utf8_encodable _); reflexivity.
Qed.

Lemma assign_question_other i question updated :
  is_dict question = false →
  assign_question i question updated = (question, updated, [], None).
Proof. destruct question; simpl; try reflexivity. discriminate. Qed.

(** A classified record either gets a code or stops the loop. *)
Lemma code_cases fields :
  (∃ code, get_standardized_code (section_of fields) (subsection_of fields) = Ok code)
  ∨ (∃ e, get_standardized_code (section_of fields) (subsection_of fields) = Raise e).
Proof.
  destruct (get_standardized_code _ _) as [code|e]; [left|right]; eauto.
Qed.

End Assignment.

(** Case analysis on a turn for a dict: the turn is rewritten to its result
    in each of the three cases, which leaves [Hc], and [code] or [e] with
    [Hk], in the context. *)
Ltac turn_cases fields :=
  let Hc := fresh "Hc" in
  let Hk := fresh "Hk" in
  let code := fresh "code" in
  let e := fresh "e" in
  destruct (classified (JObj fields)) eqn:Hc;
  [ destruct (code_cases fields) as [[code Hk]|[e Hk]];
    [ rewrite ?(assign_question_ok _ _ _ code) by assumption
    | rewrite ?(assign_question_raise _ _ _ e) by assumption ]
  | rewrite ?assign_question_skip by assumption ].

Section AssignmentLoop.
Context {R : Runtime}.
Implicit Types (fields : list (pystr * json)) (question : json) (i updated : nat).
Implicit Types (questions : list json).

(** The record left in memory does not depend on the count. *)
Lemma assign_question_record i question updated :
  fst (fst (fst (assign_question i question updated))) = assigned i question.
Proof.
  unfold assigned. destruct question as [| | | | |fields];
    try (rewrite !assign_question_other by reflexivity; reflexivity).
  turn_cases fields; reflexivity.
Qed.

(** An element that is not a dict is passed over without a word. *)
Lemma assign_question_not_dict i question updated :
  is_dict question = false →
  assigned i question = question
  ∧ snd (fst (assign_question i question updated)) = []
  ∧ snd (assign_question i question updated) = None.
Proof.
  intros H. unfold assigned. rewrite !assign_question_other by exact H.
  repeat split.
Qed.

(** The default ['missing'] of line 110 is never an ID the pass computes:
    a computed ID has a hyphen. *)
Lemma missing_is_no_id (code suffix : pystr) :
  lit "missing" ≠ code ++ lit "-" ++ suffix.
Proof.
  intros H.
  assert (Hin : 45 ∈ lit "missing").
  { rewrite H. apply elem_of_app. right. apply elem_of_app. left.
    apply list_elem_of_In. left. reflexivity. }
  apply list_elem_of_In in Hin. vm_compute in Hin.
  repeat (destruct Hin as [Hin|Hin]; [discriminate|]). exact Hin.
Qed.

Lemma differs_old_id fields (code suffix : pystr) :
  differs (dict_get fields (lit "question_id") (JStr (lit "missing")))
          (code ++ lit "-" ++ suffix)
  = match dict_lookup fields (lit "question_id") with
    | Some (JStr old_id) => negb (str_eqb old_id (code ++ lit "-" ++ suffix))
    | _ => true
    end.
Proof.
  unfold dict_get. destruct (dict_lookup fields (lit "question_id")) as [v|].
  - destruct v; reflexivity.
  - cbn [differs]. apply negb_true_iff, str_eqb_neq, missing_is_no_id.
Qed.

(** The count after a turn, whether the turn raised or not. *)
Lemma assign_question_counter i question updated :
  snd (fst (fst (assign_question i question updated)))
  = (updated + (if changes i question then 1 else 0))%nat.
Proof.
  destruct question as [| | | | |fields];
    try (rewrite assign_question_other by reflexivity; cbn [fst snd changes]; lia).
  unfold changes. fold (section_of fields) (subsection_of fields).
  turn_cases fields; rewrite ?Hk; cbn zeta; cbn [fst snd andb].
  - rewrite differs_old_id.
    destruct (dict_lookup fields (lit "question_id")) as [[| | |old_id| |]|];
      try lia.
    destruct (negb _); lia.
  - lia.
  - lia.
Qed.

Lemma assign_question_count i question updated question' updated' out :
  assign_question i question updated = (question', updated', out, None) →
  updated' = (updated + (if changes i question then 1 else 0))%nat.
Proof.
  intros H. rewrite <- (assign_question_counter i question updated), H. reflexivity.
Qed.

(** The record loop raises nothing but the two errors of a value that is
    not a [str] and the error of a line that cannot be printed. *)
Lemma get_standardized_code_exn (section subsection : json) e :
  get_standardized_code section subsection = Raise e →
  e = TypeError ∨ e = AttributeError.
Proof.
  unfold get_standardized_code.
  destruct section, subsection; cbn; intros [= <-]; auto.
Qed.

Lemma assign_question_exn i question updated e :
  snd (assign_question i question updated) = Some e →
  e = TypeError ∨ e = AttributeError ∨ e = UnicodeError.
Proof.
  destruct question as [| | | | |fields];
    try (rewrite assign_question_other by reflexivity; discriminate).
  turn_cases fields; try discriminate; cbn zeta; cbn [snd].
  - destruct (_ && negb _); [|discriminate]. intros [= <-]. auto.
  - intros [= <-]. destruct (get_standardized_code_exn _ _ _ Hk); auto.
Qed.

Lemma assign_questions_exn i questions updated questions' updated' out e :
  assign_questions i questions updated = (questions', updated', out, Some e) →
  e = TypeError ∨ e = AttributeError ∨ e = UnicodeError.
Proof.
  revert i updated questions' updated' out.
  induction questions as [|question rest IH]; intros i updated questions' updated' out H.
  - discriminate.
  - simpl in H.
    pose proof (assign_question_exn i question updated) as Hq.
    destruct (assign_question i question updated) as [[[q1 u1] o1] [e1|]].
    + injection H as _ _ _ <-. apply Hq. reflexivity.
    + destruct (assign_questions (S i) rest u1) as [[[r1 u2] o2] e2] eqn:Hr.
      injection H as _ _ _ ->. eapply IH. exact Hr.
Qed.

(** A loop that ends without exception leaves at every index the record
    its own turn computes. *)
Lemma assign_questions_imap i questions updated questions' updated' out :
  assign_questions i questions updated = (questions', updated', out, None) →
  questions' = imap (fun j => assigned (i + j)) questions.
Proof.
  revert i updated questions' updated' out.
  induction questions as [|question rest IH]; intros i updated questions' updated' out H.
  - simpl in H. injection H as <- _ _. reflexivity.
  - simpl in H.
    destruct (assign_question i question updated) as [[[q1 u1] o1] [e1|]] eqn:Hq;
      [discriminate|].
    destruct (assign_questions (S i) rest u1) as [[[r1 u2] o2] e2] eqn:Hr.
    injection H as <- <- <- ->.
    rewrite imap_cons. f_equal.
    + rewrite Nat.add_0_r, <- (assign_question_record i question updated), Hq.
      reflexivity.
    + rewrite (IH _ _ _ _ _ Hr). apply imap_ext. intros j x _. simpl.
      f_equal. lia.
Qed.

Lemma assign_questions_count i questions updated questions' updated' out :
  assign_questions i questions updated = (questions', updated', out, None) →
  updated' = (updated + changed_count i questions)%nat.
Proof.
  revert i updated questions' updated' out.
  induction questions as [|question rest IH]; intros i updated questions' updated' out H.
  - simpl in H. injection H as _ <- _. simpl. lia.
  - simpl in H.
    destruct (assign_question i question updated) as [[[q1 u1] o1] [e1|]] eqn:Hq;
      [discriminate|].
    destruct (assign_questions (S i) rest u1) as [[[r1 u2] o2] e2] eqn:Hr.
    injection H as <- <- <- ->.
    apply assign_question_count in Hq. apply IH in Hr. simpl. lia.
Qed.

(** Every turn of such a loop ended without exception, and what it printed
    is part of the loop's output. *)
Lemma assign_questions_turn i questions updated questions' updated' out j question :
  assign_questions i questions updated = (questions', updated', out, None) →
  questions !! j = Some question →
  ∃ u, snd (assign_question (i + j) question u) = None
       ∧ ∀ ev, ev ∈ snd (fst (assign_question (i + j) question u)) → ev ∈ out.
Proof.
  revert i updated questions' updated' out j.
  induction questions as [|q0 rest IH]; intros i updated questions' updated' out j H Hj.
  - rewrite lookup_nil in Hj. discriminate.
  - simpl in H.
    destruct (assign_question i q0 updated) as [[[q1 u1] o1] [e1|]] eqn:Hq;
      [discriminate|].
    destruct (assign_questions (S i) rest u1) as [[[r1 u2] o2] e2] eqn:Hr.
    injection H as <- <- <- ->.
    destruct j as [|j].
    + injection Hj as ->. exists updated. rewrite Nat.add_0_r, Hq. simpl.
      split; [reflexivity|]. intros ev Hev. apply elem_of_app. left. exact Hev.
    + simpl in Hj. destruct (IH _ _ _ _ _ _ Hr Hj) as (u & Hu & Hev).
      replace (i + S j)%nat with (S i + j)%nat by lia.
      exists u. split; [exact Hu|]. intros ev Hin. apply elem_of_app. right. auto.
Qed.

(** Conversely, when no turn raises, whatever the count, the loop ends
    without exception. *)
Lemma assign_questions_total i questions updated :
  (∀ j question u, questions !! j = Some question →
     snd (assign_question (i + j) question u) = None) →
  ∃ updated' out,
    assign_questions i questions updated
    = (imap (fun j => assigned (i + j)) questions, updated', out, None).
Proof.
  revert i updated.
  induction questions as [|q0 rest IH]; intros i updated Hall.
  - exists updated, []. reflexivity.
  - cbn [assign_questions].
    pose proof (Hall 0%nat q0 updated eq_refl) as H0. rewrite Nat.add_0_r in H0.
    pose proof (assign_question_record i q0 updated) as Hrec.
    destruct (assign_question i q0 updated) as [[[q1 u1] o1] e1].
    simpl in H0, Hrec. subst e1 q1.
    destruct (IH (S i) u1) as (u2 & o2 & Hrest).
    { intros j question u Hj. replace (S i + j)%nat with (i + S j)%nat by lia.
      apply Hall. exact Hj. }
    rewrite Hrest. exists u2, (o1 ++ o2). f_equal. f_equal. f_equal.
    rewrite imap_cons, Nat.add_0_r. f_equal.
    apply imap_ext. intros j x _. simpl. f_equal. lia.
Qed.

(** A second turn on the record a first turn produced changes nothing and
    prints nothing, so it cannot raise. *)
Lemma assigned_twice i question updated :
  snd (assign_question i question updated) = None →
  assigned i (assigned i question) = assigned i question
  ∧ ∀ u, snd (assign_question i (assigned i question) u) = None.
Proof.
  unfold assigned.
  destruct question as [| | | | |fields];
    try (simpl; auto; fail).
  turn_cases fields; cbn zeta; cbn [fst snd]; try discriminate; intros _.
  - set (new_id := code ++ lit "-" ++ format_03d (i + 1)).
    set (fields' := dict_set fields (lit "question_id") (JStr new_id)).
    assert (Hs : section_of fields' = section_of fields)
      by (apply dict_get_set_ne; discriminate).
    assert (Hb : subsection_of fields' = subsection_of fields)
      by (apply dict_get_set_ne; discriminate).
    assert (Hc' : classified (JObj fields') = true)
      by (unfold classified; rewrite Hs, Hb; exact Hc).
    assert (Hk' : get_standardized_code (section_of fields') (subsection_of fields')
                  = Ok code) by (rewrite Hs, Hb; exact Hk).
    assert (Hsame : differs (dict_get fields' (lit "question_id") (JStr (lit "missing")))
                            new_id = false).
    { unfold dict_get, fields'. rewrite dict_lookup_set_eq. cbn [differs].
      rewrite str_eqb_refl. reflexivity. }
    split.
    + rewrite (assign_question_ok _ _ _ code Hc' Hk'). cbn zeta. cbn [fst].
      unfold fields'. rewrite dict_set_twice. reflexivity.
    + intros u. rewrite (assign_question_ok _ _ _ code Hc' Hk'). cbn zeta. cbn [snd].
      fold new_id. rewrite Hsame. reflexivity.
  - rewrite ?assign_question_skip by assumption. cbn [fst].
    split; [reflexivity|]. intros u.
    rewrite assign_question_skip by assumption. reflexivity.
Qed.

End AssignmentLoop.

Section Files.
Context {R : Runtime}.
Implicit Types (f : file) (dir : directory) (questions : list json).

Lemma assign_questions_again questions questions' updated out :
  assign_questions 0 questions 0 = (questions', updated, out, None) →
  ∃ updated2 out2, assign_questions 0 questions' 0 = (questions', updated2, out2, None).
Proof.
  intros H.
  pose proof (assign_questions_imap _ _ _ _ _ _ H) as Himap.
  assert (Hturn : ∀ j question', questions' !! j = Some question' →
            ∃ question, questions !! j = Some question
                        ∧ question' = assigned j question
                        ∧ ∃ u, snd (assign_question j question u) = None).
  { intros j question' Hj. rewrite Himap, list_lookup_imap in Hj.
    destruct (questions !! j) as [question|] eqn:Hq; [|discriminate].
    injection Hj as <-. exists question. split; [reflexivity|]. split; [reflexivity|].
    destruct (assign_questions_turn _ _ _ _ _ _ _ _ H Hq) as (u & Hu & _).
    exists u. exact Hu. }
  destruct (assign_questions_total 0 questions' 0) as (u2 & o2 & H2).
  { intros j question' u' Hj. destruct (Hturn _ _ Hj) as (question & _ & -> & u & Herr).
    apply (assigned_twice _ _ _ Herr). }
  exists u2, o2. rewrite H2. f_equal. f_equal. f_equal.
  apply list_eq. intros j. rewrite list_lookup_imap.
  destruct (questions' !! j) as [question'|] eqn:Hj; [|reflexivity].
  destruct (Hturn _ _ Hj) as (question & _ & -> & u & Herr). simpl.
  f_equal. apply (assigned_twice _ _ _ Herr).
Qed.

(** What it takes for a file to be processed, and what is then on disk. *)
Lemma processed_inv f :
  processed f = true →
  ∃ questions questions' updated out,
    fcontent f = Parsed (JArr questions)
    ∧ assign_questions 0 questions 0 = (questions', updated, out, None)
    ∧ fwritable f = true
    ∧ json_encodable (JArr questions') = true
    ∧ process_file f
      = ({| fname := fname f; fcontent := Parsed (JArr questions'); fwritable := true |},
         PrintProcessing (fname f) :: out ++ [PrintUpdated updated (length questions)],
         Some updated).
Proof.
  unfold processed, process_file, load, dump.
  destruct (fcontent f) as [document| | |]; try discriminate.
  destruct document as [| | | |questions|]; try discriminate.
  destruct (assign_questions 0 questions 0) as [[[questions' updated] out] [e|]] eqn:Ha;
    [discriminate|].
  destruct (fwritable f); [|discriminate]. cbn [negb].
  destruct (json_encodable (JArr questions')) eqn:He; [|discriminate].
  intros _. exists questions, questions', updated, out. auto.
Qed.

Lemma process_file_name f : fname (fst (fst (process_file f))) = fname f.
Proof.
  unfold process_file, load, dump.
  destruct (fcontent f) as [document| | |]; try reflexivity.
  destruct document as [| | | |questions|]; try reflexivity.
  destruct (assign_questions 0 questions 0) as [[[questions' updated] out] [e|]];
    [reflexivity|].
  destruct (fwritable f); [|reflexivity]. cbn [negb].
  destruct (json_encodable (JArr questions')); reflexivity.
Qed.

Lemma standardize_file_name f : fname (standardize_file f) = fname f.
Proof.
  unfold standardize_file. destruct (excluded (fname f)); [reflexivity|].
  apply process_file_name.
Qed.

(** A second pass over a file leaves it as the first pass did. *)
Lemma process_file_twice f :
  fst (fst (process_file (fst (fst (process_file f))))) = fst (fst (process_file f)).
Proof.
  destruct f as [name c w].
  destruct c as [document| | |]; try reflexivity.
  destruct document as [| | | |questions|]; try reflexivity.
  unfold process_file at 2 3. unfold load, dump. cbn [fcontent fwritable fname].
  destruct (assign_questions 0 questions 0) as [[[questions' updated] out] [e|]] eqn:Ha.
  - cbn [fst]. unfold process_file, load. cbn [fcontent]. rewrite Ha. reflexivity.
  - destruct w; cbn [negb].
    + destruct (json_encodable (JArr questions')) eqn:He; cbn [fst].
      * destruct (assign_questions_again _ _ _ _ Ha) as (u2 & o2 & H2).
        unfold process_file, load, dump. cbn [fcontent fwritable fname negb].
        rewrite H2, He. reflexivity.
      * reflexivity.
    + cbn [fst]. unfold process_file, load, dump. cbn [fcontent fwritable negb].
      rewrite Ha. reflexivity.
Qed.

Lemma standardize_file_twice f :
  standardize_file (standardize_file f) = standardize_file f.
Proof.
  unfold standardize_file at 1. rewrite standardize_file_name.
  unfold standardize_file. destruct (excluded (fname f)); [reflexivity|].
  apply process_file_twice.
Qed.

(** The loop over files handles each file on its own. *)
Lemma process_files_map dir t :
  fst (fst (process_files dir t)) = standardize_file <$> dir.
Proof.
  revert t. induction dir as [|f rest IH]; intros t; [reflexivity|].
  cbn [process_files fmap list_fmap]. unfold standardize_file at 1.
  destruct (excluded (fname f)).
  - specialize (IH t). destruct (process_files rest t) as [[rest' t'] out].
    cbn [fst] in *. f_equal. exact IH.
  - destruct (process_file f) as [[f' out] outcome].
    specialize (IH (count_file t outcome)).
    destruct (process_files rest (count_file t outcome)) as [[rest' t'] out'].
    cbn [fst] in *. f_equal. exact IH.
Qed.

Lemma process_files_output dir t k f ev :
  dir !! k = Some f →
  excluded (fname f) = false →
  ev ∈ snd (fst (process_file f)) →
  ev ∈ snd (process_files dir t).
Proof.
  revert t k. induction dir as [|f0 rest IH]; intros t k Hk Hx Hev.
  - rewrite lookup_nil in Hk. discriminate.
  - cbn [process_files]. destruct k as [|k].
    + injection Hk as ->. rewrite Hx.
      destruct (process_file f) as [[f' out] outcome].
      destruct (process_files rest (count_file t outcome)) as [[rest' t'] out'].
      cbn [fst snd] in *. apply elem_of_app. left. exact Hev.
    + simpl in Hk. destruct (excluded (fname f0)).
      * specialize (IH t k Hk Hx Hev).
        destruct (process_files rest t) as [[rest' t'] out]. exact IH.
      * destruct (process_file f0) as [[f' out] outcome].
        specialize (IH (count_file t outcome) k Hk Hx Hev).
        destruct (process_files rest (count_file t outcome)) as [[rest' t'] out'].
        cbn [snd] in *. apply elem_of_app. right. exact IH.
Qed.

Lemma files_after_some dir : files_after (Some dir) = Some (standardize_file <$> dir).
Proof.
  unfold files_after, standardize_question_ids.
  pose proof (process_files_map dir {| files_processed := 0; total_questions_updated := 0 |}) as H.
  destruct (process_files dir _) as [[dir' t] out].
  destruct (verify_no_duplicates dir') as [out' err].
  cbn [fst] in *. congruence.
Qed.

Lemma output_some dir k f ev :
  dir !! k = Some f →
  excluded (fname f) = false →
  ev ∈ snd (fst (process_file f)) →
  ev ∈ output (Some dir).
Proof.
  intros Hk Hx Hev. unfold output, standardize_question_ids.
  pose proof (process_files_output dir {| files_processed := 0; total_questions_updated := 0 |}
                _ _ _ Hk Hx Hev) as H.
  destruct (process_files dir _) as [[dir' t] out].
  destruct (verify_no_duplicates dir') as [out' err].
  cbn [fst snd] in *. apply elem_of_cons. right. apply elem_of_app. left. exact H.
Qed.

Lemma files_after_lookup dir k f :
  dir !! k = Some f →
  ∃ dir', files_after (Some dir) = Some dir' ∧ dir' !! k = Some (standardize_file f).
Proof.
  intros Hk. exists (standardize_file <$> dir). split; [apply files_after_some|].
  rewrite list_lookup_fmap, Hk. reflexivity.
Qed.

End Files.

Section Records.
Context {R : Runtime}.
Implicit Types (f : file) (dir : directory) (questions : list json).

(** What the pass leaves on disk for a processed file, record by record. *)
Lemma processed_file_after dir k f questions :
  dir !! k = Some f →
  excluded (fname f) = false →
  processed f = true →
  fcontent f = Parsed (JArr questions) →
  ∃ updated out,
    assign_questions 0 questions 0
    = (imap (fun j => assigned j) questions, updated, out, None)
    ∧ process_file f
      = ({| fname := fname f;
            fcontent := Parsed (JArr (imap (fun j => assigned j) questions));
            fwritable := true |},
         PrintProcessing (fname f) :: out ++ [PrintUpdated updated (length questions)],
         Some updated)
    ∧ ∀ i, record_after (Some dir) k i = assigned i <$> questions !! i.
Proof.
  intros Hk Hx Hp Hc.
  destruct (processed_inv f Hp) as (qs & qs' & updated & out & Hc' & Ha & Hw & He & Hpf).
  rewrite Hc in Hc'. injection Hc' as <-.
  pose proof (assign_questions_imap _ _ _ _ _ _ Ha) as Hi. cbn [Nat.add] in Hi. subst qs'.
  exists updated, out. split; [exact Ha|]. split; [exact Hpf|].
  intros i. unfold record_after, record_in. rewrite files_after_some.
  rewrite list_lookup_fmap, Hk. cbn [fmap option_fmap option_map].
  unfold standardize_file. rewrite Hx, Hpf. cbn [fst records_of fcontent].
  apply list_lookup_imap.
Qed.

(** In a processed file every classified record got a code, and carries the
    ID made of it. *)
Lemma classified_record_after dir k f questions i fields :
  dir !! k = Some f →
  excluded (fname f) = false →
  processed f = true →
  fcontent f = Parsed (JArr questions) →
  questions !! i = Some (JObj fields) →
  classified (JObj fields) = true →
  ∃ code,
    get_standardized_code (section_of fields) (subsection_of fields) = Ok code
    ∧ record_after (Some dir) k i
      = Some (JObj (dict_set fields (lit "question_id")
                             (JStr (code ++ lit "-" ++ format_03d (i + 1)))))
    ∧ question_id_after (Some dir) k i
      = Some (JStr (code ++ lit "-" ++ format_03d (i + 1))).
Proof.
  intros Hk Hx Hp Hc Hi Hcl.
  destruct (processed_file_after _ _ _ _ Hk Hx Hp Hc) as (updated & out & Ha & _ & Hrec).
  destruct (assign_questions_turn _ _ _ _ _ _ _ _ Ha Hi) as (u & Hu & _).
  cbn [Nat.add] in Hu.
  destruct (code_cases fields) as [[code Hcode]|[e Hcode]].
  - exists code. split; [exact Hcode|].
    assert (Hr : record_after (Some dir) k i
                 = Some (JObj (dict_set fields (lit "question_id")
                                 (JStr (code ++ lit "-" ++ format_03d (i + 1)))))).
    { rewrite Hrec, Hi. cbn [fmap option_fmap option_map]. f_equal.
      unfold assigned. rewrite (assign_question_ok _ _ _ code) by assumption.
      reflexivity. }
    split; [exact Hr|].
    unfold question_id_after, question_id_in. unfold record_after in Hr.
    rewrite Hr. apply dict_lookup_set_eq.
  - rewrite (assign_question_raise _ _ _ e) in Hu by assumption. discriminate.
Qed.

End Records.

(** C1 (amended): in a processed file, a record that is a dict with
    non-empty [section] and [subsection] at 0-based index [i] of its own file
    has, after the pass, the [question_id] made of the resolved code, a
    hyphen and [i + 1] in decimal, zero-padded on the left to at least three
    digits; it is exactly three digits when [i + 1] is at most 999. *)
Theorem C1_question_id_of_classified_record `{R : Runtime}
    (dir : directory) (k : nat) (f : file) (questions : list json) (i : nat)
    (fields : list (pystr * json)) :
  dir !! k = Some f →
  excluded (fname f) = false →
  processed f = true →
  fcontent f = Parsed (JArr questions) →
  questions !! i = Some (JObj fields) →
  classified (JObj fields) = true →
  ∃ code,
    get_standardized_code (section_of fields) (subsection_of fields) = Ok code
    ∧ question_id_after (Some dir) k i
      = Some (JStr (code ++ lit "-" ++ format_03d (i + 1)))
    ∧ ((i + 1 ≤ 999)%nat → format_03d (i + 1) = three_digits (i + 1)).
Proof.
  intros Hk Hx Hp Hc Hi Hcl.
  destruct (classified_record_after _ _ _ _ _ _ Hk Hx Hp Hc Hi Hcl) as (code & Hcode & _ & Hid).
  exists code. split; [exact Hcode|]. split; [exact Hid|].
  apply format_03d_small.
Qed.

(** The specification's example: the pair (Logical Reasoning, Strengthen) at
    position 5 gives lr-str-005. *)
Lemma C1_witness_position_5 :
  question_id_in (Some [strengthen_file]) 0 4 = Some (JStr (lit "old-1"))
  ∧ question_id_after (Some [strengthen_file]) 0 4 = Some (JStr (lit "lr-str-005")).
Proof.
  split; [reflexivity|].
  destruct (C1_question_id_of_classified_record
              [strengthen_file] 0 strengthen_file _ 4 _
              eq_refl eq_refl eq_refl eq_refl eq_refl eq_refl)
    as (code & Hcode & Hid & _).
  vm_compute in Hcode. injection Hcode as <-. exact Hid.
Defined.

(** C1 as stated fails at position 1000: the ID ends in four digits. *)
Lemma C1_counterexample_position_1000 :
  processed thousand_file = true
  ∧ record_in (Some [thousand_file]) 0 999
    = Some (record "old" "Logical Reasoning" "Strengthen")
  ∧ get_standardized_code (JStr (lit "Logical Reasoning")) (JStr (lit "Strengthen"))
    = Ok (lit "lr-str")
  ∧ question_id_after (Some [thousand_file]) 0 999 = Some (JStr (lit "lr-str-1000"))
  ∧ question_id_after (Some [thousand_file]) 0 999
    ≠ Some (JStr (lit "lr-str" ++ lit "-" ++ three_digits 1000))
  ∧ ∀ digits : pystr, length digits = 3%nat →
      question_id_after (Some [thousand_file]) 0 999
      ≠ Some (JStr (lit "lr-str" ++ lit "-" ++ digits)).
Proof.
  assert (Hid : question_id_after (Some [thousand_file]) 0 999
                = Some (JStr (lit "lr-str-1000"))) by (vm_compute; reflexivity).
  split; [vm_compute; reflexivity|].
  split; [vm_compute; reflexivity|].
  split; [vm_compute; reflexivity|].
  split; [exact Hid|].
  split.
  - rewrite Hid. vm_compute. discriminate.
  - intros digits Hlen. rewrite Hid. intros Heq.
    assert (H : length (lit "lr-str-1000") = length (lit "lr-str" ++ lit "-" ++ digits))
      by congruence.
    rewrite !length_app, Hlen in H. vm_compute in H. discriminate.
Qed.

Section Codes.
Context {R : Runtime}.

Lemma taxonomy_pairs_In (section subsection code : pystr) inner :
  In (section, inner) SUBSECTION_CODES →
  In (subsection, code) inner →
  In (section, subsection, code) taxonomy_pairs.
Proof.
  intros Hs Hc. unfold taxonomy_pairs. apply in_flat_map.
  exists (section, inner). split; [exact Hs|].
  apply in_map_iff. exists (subsection, code). split; [reflexivity|exact Hc].
Qed.

(** On two strings the resolution never raises: it is the table's entry or
    the fallback. *)
Lemma get_standardized_code_str (section subsection : pystr) :
  get_standardized_code (JStr section) (JStr subsection)
  = Ok (dict_get (dict_get SUBSECTION_CODES section []) subsection
          (take 2 (lower section) ++ lit "-" ++ take 4 (lower subsection))).
Proof. reflexivity. Qed.

Lemma fallback_when_absent (section subsection : pystr) :
  (∀ code, ¬ In (section, subsection, code) taxonomy_pairs) →
  ∀ default, dict_get (dict_get SUBSECTION_CODES section []) subsection default = default.
Proof.
  intros Habs default. unfold dict_get at 1.
  destruct (dict_lookup _ subsection) as [code|] eqn:E2; [|reflexivity].
  exfalso. unfold dict_get in E2.
  destruct (dict_lookup SUBSECTION_CODES section) as [inner|] eqn:E1.
  - apply dict_lookup_In in E1, E2. apply (Habs code).
    eapply taxonomy_pairs_In; eassumption.
  - discriminate.
Qed.

End Codes.

(** C2: for a pair of the taxonomy table [get_standardized_code] returns the
    table's code; for any other pair of strings it returns, without raising,
    the first 2 characters of the lowercased section, a hyphen and the first
    4 characters of the lowercased subsection.  So ("Foo", "Barbaz") gives
    fo-barb; the turn of a record with that pair at position 2 assigns
    fo-barb-002 and prints no warning (it can only stop on an example line
    that cannot be printed), and in a processed file that record has
    fo-barb-002 after the pass. *)
Theorem C2_code_resolution `{R : Runtime} (section subsection : pystr) :
  (∀ code, (section, subsection, code) ∈ taxonomy_pairs →
     get_standardized_code (JStr section) (JStr subsection) = Ok code)
  ∧ ((∀ code, (section, subsection, code) ∉ taxonomy_pairs) →
     get_standardized_code (JStr section) (JStr subsection)
     = Ok (take 2 (lower section) ++ lit "-" ++ take 4 (lower subsection)))
  ∧ get_standardized_code (JStr (lit "Foo")) (JStr (lit "Barbaz")) = Ok (lit "fo-barb")
  ∧ (∀ fields updated,
       section_of fields = JStr (lit "Foo") →
       subsection_of fields = JStr (lit "Barbaz") →
       ∃ updated' out err,
         assign_question 1 (JObj fields) updated
         = (JObj (dict_set fields (lit "question_id") (JStr (lit "fo-barb-002"))),
            updated', out, err)
         ∧ (PrintMissing 2 ∉ out)
         ∧ (err = None ∨ err = Some UnicodeError)
         ∧ (printable (dict_get fields (lit "question_id") (JStr (lit "missing"))) = true →
            err = None))
  ∧ (∀ (dir : directory) k f questions fields,
       dir !! k = Some f →
       excluded (fname f) = false →
       processed f = true →
       fcontent f = Parsed (JArr questions) →
       questions !! 1%nat = Some (JObj fields) →
       section_of fields = JStr (lit "Foo") →
       subsection_of fields = JStr (lit "Barbaz") →
       question_id_after (Some dir) k 1 = Some (JStr (lit "fo-barb-002"))).
Proof.
  split; [|split; [|split; [|split]]].
  - intros code H. apply list_elem_of_In in H. vm_compute in H.
    repeat (destruct H as [H|H];
            [injection H as <- <- <-; vm_compute; reflexivity|]).
    destruct H.
  - intros Habs. rewrite get_standardized_code_str. f_equal.
    apply fallback_when_absent. intros code Hin. apply (Habs code).
    apply list_elem_of_In. exact Hin.
  - vm_compute. reflexivity.
  - intros fields updated Hs Hb.
    assert (Hcl : classified (JObj fields) = true)
      by (unfold classified; rewrite Hs, Hb; reflexivity).
    assert (Hcode : get_standardized_code (section_of fields) (subsection_of fields)
                    = Ok (lit "fo-barb"))
      by (rewrite Hs, Hb; vm_compute; reflexivity).
    rewrite (assign_question_ok _ _ _ _ Hcl Hcode). cbn zeta.
    change (lit "fo-barb" ++ lit "-" ++ format_03d (1 + 1)) with (lit "fo-barb-002").
    change (utf8_encodable (lit "fo-barb-002")) with true. rewrite andb_true_r.
    eexists _, _, _. split; [reflexivity|].
    destruct (differs _ _ && _), (printable _); cbn [andb negb];
      (split; [intros Hin; apply list_elem_of_In in Hin; simpl in Hin;
               intuition discriminate|]);
      (split; [auto|]); intros H; reflexivity || discriminate H.
  - intros dir k f questions fields Hk Hx Hp Hc Hi Hs Hb.
    assert (Hcl : classified (JObj fields) = true)
      by (unfold classified; rewrite Hs, Hb; reflexivity).
    destruct (classified_record_after _ _ _ _ _ _ Hk Hx Hp Hc Hi Hcl)
      as (code & Hcode & _ & Hid).
    rewrite Hs, Hb in Hcode. vm_compute in Hcode. injection Hcode as <-. exact Hid.
Qed.

Lemma C2_witness_known_and_unknown_pair :
  get_standardized_code (JStr (lit "Logical Reasoning")) (JStr (lit "Strengthen"))
  = Ok (lit "lr-str")
  ∧ get_standardized_code (JStr (lit "Foo")) (JStr (lit "Barbaz"))
    = Ok (take 2 (lower (lit "Foo")) ++ lit "-" ++ take 4 (lower (lit "Barbaz")))
  ∧ question_id_after (Some [unknown_pair_file]) 0 1 = Some (JStr (lit "fo-barb-002")).
Proof.
  destruct (C2_code_resolution (lit "Logical Reasoning") (lit "Strengthen")) as (Hknown & _).
  destruct (C2_code_resolution (lit "Foo") (lit "Barbaz")) as (_ & Hunknown & _ & _ & Hpass).
  split; [|split].
  - apply Hknown. apply list_elem_of_In. vm_compute.
    right. left. reflexivity.
  - apply Hunknown. intros code Hin. apply list_elem_of_In in Hin. vm_compute in Hin.
    repeat (destruct Hin as [Hin|Hin]; [discriminate|]). exact Hin.
  - apply (Hpass [unknown_pair_file] 0%nat unknown_pair_file _ _
             eq_refl eq_refl eq_refl eq_refl eq_refl eq_refl eq_refl).
Defined.

(** C3: a second pass right after a first one leaves every file, hence every
    [question_id] of every record, as the first pass left it. *)
Theorem C3_second_pass_assigns_same_ids `{R : Runtime} (fs : option directory) :
  files_after (files_after fs) = files_after fs
  ∧ ∀ k i, question_id_after (files_after fs) k i = question_id_after fs k i.
Proof.
  assert (H : files_after (files_after fs) = files_after fs).
  { destruct fs as [dir|]; [|reflexivity].
    rewrite !files_after_some. f_equal.
    rewrite <- list_fmap_compose. apply list_fmap_ext.
    intros _ f _. apply standardize_file_twice. }
  split; [exact H|].
  intros k i. unfold question_id_after. rewrite H. reflexivity.
Qed.

(** C4: in a processed file a record (a dict) whose [section] or
    [subsection] is missing or empty is written back as it was, so with its
    original [question_id]; a warning with its position is printed; and the
    classified records after it are numbered by their own index in the
    file. *)
Theorem C4_skipped_record_is_kept `{R : Runtime}
    (dir : directory) (k : nat) (f : file) (questions : list json) (i : nat)
    (fields : list (pystr * json)) :
  dir !! k = Some f →
  excluded (fname f) = false →
  processed f = true →
  fcontent f = Parsed (JArr questions) →
  questions !! i = Some (JObj fields) →
  classified (JObj fields) = false →
  record_after (Some dir) k i = Some (JObj fields)
  ∧ question_id_after (Some dir) k i = question_id_in (Some dir) k i
  ∧ PrintMissing (i + 1) ∈ snd (fst (process_file f))
  ∧ PrintMissing (i + 1) ∈ output (Some dir)
  ∧ ∀ j fields_j,
      (i < j)%nat →
      questions !! j = Some (JObj fields_j) →
      classified (JObj fields_j) = true →
      ∃ code,
        get_standardized_code (section_of fields_j) (subsection_of fields_j) = Ok code
        ∧ question_id_after (Some dir) k j
          = Some (JStr (code ++ lit "-" ++ format_03d (j + 1))).
Proof.
  intros Hk Hx Hp Hc Hi Hcl.
  destruct (processed_file_after _ _ _ _ Hk Hx Hp Hc) as (updated & out & Ha & Hpf & Hrec).
  assert (Hr : record_after (Some dir) k i = Some (JObj fields)).
  { rewrite Hrec, Hi. cbn [fmap option_fmap option_map]. f_equal.
    unfold assigned. rewrite assign_question_skip by assumption. reflexivity. }
  assert (Hw : PrintMissing (i + 1) ∈ snd (fst (process_file f))).
  { destruct (assign_questions_turn _ _ _ _ _ _ _ _ Ha Hi) as (u & _ & Hout).
    cbn [Nat.add] in Hout. rewrite assign_question_skip in Hout by assumption.
    rewrite Hpf. cbn [fst snd]. apply elem_of_cons. right. apply elem_of_app. left.
    apply Hout. cbn [fst snd]. apply list_elem_of_singleton. reflexivity. }
  split; [exact Hr|]. split; [|split; [exact Hw|split]].
  - unfold question_id_after, question_id_in. unfold record_after in Hr. rewrite Hr.
    unfold record_in. rewrite Hk. unfold records_of. rewrite Hc, Hi. reflexivity.
  - eapply output_some; eassumption.
  - intros j fields_j _ Hj Hclj.
    destruct (classified_record_after _ _ _ _ _ _ Hk Hx Hp Hc Hj Hclj)
      as (code & Hcode & _ & Hid).
    exists code. auto.
Qed.

Lemma C4_witness_skipped_third_record :
  record_in (Some [strengthen_file]) 0 2 = Some (unclassified (JStr (lit "draft-7")))
  ∧ record_after (Some [strengthen_file]) 0 2 = Some (unclassified (JStr (lit "draft-7")))
  ∧ PrintMissing 3 ∈ output (Some [strengthen_file])
  ∧ question_id_after (Some [strengthen_file]) 0 3 = Some (JStr (lit "lr-str-004")).
Proof.
  destruct (C4_skipped_record_is_kept
              [strengthen_file] 0 strengthen_file _ 2 _
              eq_refl eq_refl eq_refl eq_refl eq_refl eq_refl)
    as (Hrec & _ & _ & Hwarn & Hnext).
  split; [reflexivity|]. split; [exact Hrec|]. split; [exact Hwarn|].
  destruct (Hnext 3%nat _ ltac:(lia) eq_refl eq_refl) as (code & Hcode & Hid).
  vm_compute in Hcode. injection Hcode as <-. exact Hid.
Defined.

Section Counting.
Context {R : Runtime}.
Implicit Types (f : file) (dir : directory) (questions : list json).

(** A turn leaves the record as it was or overwrites its [question_id]. *)
Lemma assigned_cases i question :
  assigned i question = question
  ∨ ∃ fields v, question = JObj fields
                ∧ assigned i question = JObj (dict_set fields (lit "question_id") v).
Proof.
  unfold assigned. destruct question as [| | | | |fields]; try (left; reflexivity).
  turn_cases fields; [right|left|left]; try reflexivity.
  eexists _, _. split; reflexivity.
Qed.

Lemma assigned_same_payload i question : same_payload question (assigned i question).
Proof.
  destruct (assigned_cases i question) as [->|(fields & v & -> & ->)].
  - destruct question; simpl; auto.
  - simpl. split; [apply other_fields_set|].
    intros key Hkey. apply dict_lookup_set_ne. congruence.
Qed.

(** The outcome of a file in terms of [processed]. *)
Lemma process_file_outcome f :
  snd (process_file f)
  = if processed f then Some (changed_count 0 (records_of f)) else None.
Proof.
  destruct (processed f) eqn:Hp.
  - destruct (processed_inv f Hp) as (qs & qs' & updated & out & Hc & Ha & _ & _ & Hpf).
    rewrite Hpf. cbn [snd]. unfold records_of. rewrite Hc.
    apply assign_questions_count in Ha. rewrite Ha. reflexivity.
  - unfold processed in Hp. destruct (snd (process_file f)); [discriminate|reflexivity].
Qed.

Lemma process_files_tally dir t :
  snd (fst (process_files dir t))
  = {| files_processed := files_processed t + count_processed dir;
       total_questions_updated := total_questions_updated t + total_changed dir |}.
Proof.
  revert t. induction dir as [|f rest IH]; intros t.
  - destruct t. cbn. f_equal; lia.
  - cbn [process_files count_processed total_changed]. unfold changed_in_file.
    destruct (excluded (fname f)).
    + specialize (IH t). destruct (process_files rest t) as [[rest' t'] out].
      cbn [fst snd] in *. rewrite IH. f_equal; lia.
    + pose proof (process_file_outcome f) as Ho.
      destruct (process_file f) as [[f' out] outcome]. cbn [snd] in Ho. subst outcome.
      specialize (IH (count_file t (if processed f
                                   then Some (changed_count 0 (records_of f)) else None))).
      destruct (process_files rest _) as [[rest' t'] out'].
      cbn [fst snd] in *. rewrite IH.
      destruct (processed f); cbn [count_file files_processed total_questions_updated];
        f_equal; lia.
Qed.

Lemma output_complete dir :
  PrintComplete (count_processed dir) (total_changed dir) ∈ output (Some dir).
Proof.
  unfold output, standardize_question_ids.
  pose proof (process_files_tally dir {| files_processed := 0; total_questions_updated := 0 |})
    as H.
  destruct (process_files dir _) as [[dir' t] out].
  destruct (verify_no_duplicates dir') as [out' err].
  cbn [fst snd] in *. subst t. cbn [files_processed total_questions_updated Nat.add].
  apply elem_of_cons. right. apply elem_of_app. right. apply elem_of_cons. left.
  reflexivity.
Qed.

End Counting.




(** C8: a processed file is written back with the same number of records, in
    the same order, and every record agrees with the original on every field
    other than [question_id]; an element that is not a dict is written back
    as it was. *)
Theorem C8_rewrite_changes_only_question_id `{R : Runtime}
    (dir : directory) (k : nat) (f : file) (questions : list json) :
  dir !! k = Some f →
  excluded (fname f) = false →
  processed f = true →
  fcontent f = Parsed (JArr questions) →
  ∃ dir' f',
    files_after (Some dir) = Some dir'
    ∧ dir' !! k = Some f'
    ∧ fname f' = fname f
    ∧ length (records_of f') = length questions
    ∧ ∀ i question,
        questions !! i = Some question →
        ∃ question',
          records_of f' !! i = Some question'
          ∧ same_payload question question'.
Proof.
  intros Hk Hx Hp Hc.
  destruct (processed_file_after _ _ _ _ Hk Hx Hp Hc) as (updated & out & _ & Hpf & _).
  destruct (files_after_lookup _ _ _ Hk) as (dir' & Hdir & Hk').
  exists dir', (standardize_file f). split; [exact Hdir|]. split; [exact Hk'|].
  split; [apply standardize_file_name|].
  unfold standardize_file. rewrite Hx, Hpf. cbn [fst records_of fcontent].
  split; [apply length_imap|].
  intros i question Hi. exists (assigned i question).
  rewrite list_lookup_imap, Hi. split; [reflexivity|apply assigned_same_payload].
Qed.

Lemma C8_witness_payload_kept :
  ∃ f', files_after (Some [strengthen_file]) = Some [f']
        ∧ fname f' = lit "strengthen.json"
        ∧ length (records_of f') = 5%nat
        ∧ ∃ fields', records_of f' !! 4%nat = Some (JObj fields')
            ∧ dict_lookup fields' (lit "difficulty") = Some (JNum 3%Z)
            ∧ dict_lookup fields' (lit "tags") = Some (JArr [JStr (lit "lsat")]).
Proof.
  destruct (C8_rewrite_changes_only_question_id
              [strengthen_file] 0 strengthen_file _ eq_refl eq_refl eq_refl eq_refl)
    as (dir' & f' & Hdir & Hk & Hname & Hlen & Hrec).
  rewrite files_after_some in Hdir. injection Hdir as <-.
  injection Hk as <-.
  exists (standardize_file strengthen_file).
  split; [exact (files_after_some [strengthen_file])|].
  split; [exact Hname|]. split; [exact Hlen|].
  destruct (Hrec 4%nat _ eq_refl) as (question' & Hq & Hsame).
  destruct question' as [| | | | |fields']; try discriminate Hsame.
  exists fields'. split; [exact Hq|].
  destruct Hsame as [_ Hsame].
  split; (rewrite Hsame; [reflexivity|discriminate]).
Defined.

(** C9: when a turn of the loop over a file's records raises (on a section
    or subsection that is not a string, or on an example line that cannot be
    printed), the file on disk is what it was before the pass, the error is
    printed for that file, and every other file is handled as it would be on
    its own. *)
Theorem C9_record_error_leaves_file_untouched `{R : Runtime}
    (dir : directory) (k : nat) (f : file) (questions in_memory : list json)
    (updated : nat) (out : list event) (e : exn) :
  dir !! k = Some f →
  excluded (fname f) = false →
  fcontent f = Parsed (JArr questions) →
  assign_questions 0 questions 0 = (in_memory, updated, out, Some e) →
  ∃ dir',
    files_after (Some dir) = Some dir'
    ∧ dir' !! k = Some f
    ∧ processed f = false
    ∧ (e = TypeError ∨ e = AttributeError ∨ e = UnicodeError)
    ∧ PrintError (fname f) e ∈ output (Some dir)
    ∧ ∀ k' g, dir !! k' = Some g → dir' !! k' = Some (standardize_file g).
Proof.
  intros Hk Hx Hc Ha.
  pose proof (assign_questions_exn _ _ _ _ _ _ _ Ha) as He.
  assert (Hpf : process_file f
                = (f, PrintProcessing (fname f) :: out ++ [PrintError (fname f) e], None)).
  { unfold process_file, load. rewrite Hc, Ha.
    destruct He as [->|[->| ->]]; reflexivity. }
  exists (standardize_file <$> dir). split; [apply files_after_some|].
  split; [|split; [|split; [|split]]].
  - rewrite list_lookup_fmap, Hk. cbn [fmap option_fmap option_map].
    unfold standardize_file. rewrite Hx, Hpf. reflexivity.
  - unfold processed. rewrite Hpf. reflexivity.
  - exact He.
  - eapply output_some; [exact Hk|exact Hx|].
    rewrite Hpf. cbn [fst snd]. apply elem_of_cons. right. apply elem_of_app. right.
    apply list_elem_of_singleton. reflexivity.
  - intros k' g Hg. rewrite list_lookup_fmap, Hg. reflexivity.
Qed.

(** A number as [section] makes [lower] fail on the second record, after the
    first one was reassigned in memory; the file stays as it was and the
    next file is processed.  An old ID that is a lone surrogate makes the
    example line of the first record fail: the file stays as it was, its
    second record is never reached and gets no warning. *)
Lemma C9_witness_number_as_section :
  (∃ in_memory updated out,
     assign_questions 0 (records_of broken_file) 0
     = (in_memory, updated, out, Some AttributeError)
     ∧ in_memory !! 0%nat ≠ records_of broken_file !! 0%nat)
  ∧ files_after (Some [broken_file; strengthen_file])
    = Some [broken_file; standardize_file strengthen_file]
  ∧ PrintError (lit "broken.json") AttributeError
    ∈ output (Some [broken_file; strengthen_file])
  ∧ question_id_after (Some [broken_file; strengthen_file]) 1 4
    = Some (JStr (lit "lr-str-005"))
  ∧ files_after (Some [surrogate_id_file; strengthen_file])
    = Some [surrogate_id_file; standardize_file strengthen_file]
  ∧ PrintError (lit "surrogate.json") UnicodeError
    ∈ output (Some [surrogate_id_file; strengthen_file])
  ∧ PrintMissing 2 ∉ snd (fst (process_file surrogate_id_file)).
Proof.
  destruct (assign_questions 0 (records_of broken_file) 0)
    as [[[in_memory updated] out] err] eqn:Ha.
  assert (Herr : err = Some AttributeError)
    by (apply (f_equal snd) in Ha; vm_compute in Ha; congruence).
  subst err.
  destruct (C9_record_error_leaves_file_untouched
              [broken_file; strengthen_file] 0 broken_file _ _ _ _ _
              eq_refl eq_refl eq_refl Ha)
    as (dir' & Hdir & _ & _ & _ & Hprint & _).
  destruct (assign_questions 0 (records_of surrogate_id_file) 0)
    as [[[in_memory' updated'] out'] err'] eqn:Ha'.
  assert (Herr' : err' = Some UnicodeError)
    by (apply (f_equal snd) in Ha'; vm_compute in Ha'; congruence).
  subst err'.
  destruct (C9_record_error_leaves_file_untouched
              [surrogate_id_file; strengthen_file] 0 surrogate_id_file _ _ _ _ _
              eq_refl eq_refl eq_refl Ha')
    as (dir'' & Hdir' & _ & _ & _ & Hprint' & _).
  split; [|split; [|split; [|split; [|split; [|split]]]]].
  - exists in_memory, updated, out. split; [reflexivity|].
    apply (f_equal (fun r => fst (fst (fst r)))) in Ha. cbn [fst] in Ha. subst in_memory.
    vm_compute. discriminate.
  - vm_compute. reflexivity.
  - exact Hprint.
  - vm_compute. reflexivity.
  - vm_compute. reflexivity.
  - exact Hprint'.
  - intros Hin. apply list_elem_of_In in Hin. vm_compute in Hin.
    intuition discriminate.
Defined.

Section Verification.
Context {R : Runtime}.
Implicit Types (st : id_sets) (k : pykey) (ids : pyset) (questions : list json).

Lemma set_in_app k ids ids' : set_in k (ids ++ ids') = set_in k ids || set_in k ids'.
Proof. apply existsb_app. Qed.

Lemma set_in_add_mono k k' ids : set_in k ids = true → set_in k (set_add k' ids) = true.
Proof.
  intros H. unfold set_add. destruct (set_in k' ids); [exact H|].
  rewrite set_in_app, H. reflexivity.
Qed.

Lemma set_in_add_str (s : pystr) ids : set_in (KStr s) (set_add (KStr s) ids) = true.
Proof.
  unfold set_add. destruct (set_in (KStr s) ids) eqn:E; [exact E|].
  rewrite set_in_app. simpl. rewrite str_eqb_refl, orb_true_r. reflexivity.
Qed.

Lemma set_in_add_inv k k' ids :
  set_in k (set_add k' ids) = true → set_in k ids = true ∨ key_eqb k k' = true.
Proof.
  unfold set_add. destruct (set_in k' ids); [auto|].
  rewrite set_in_app. simpl. rewrite orb_false_r.
  intros H. apply orb_true_iff in H. exact H.
Qed.

(** The turn for a dict, by the truth value and the hash of its ID. *)
Lemma check_question_dict (fields : list (pystr * json)) st :
  check_question (JObj fields) st
  = let qid := dict_get fields (lit "question_id") JNull in
    if truthy qid
    then match hash_key qid with
         | Raise e => (st, Some e)
         | Ok k =>
             if set_in k (all_ids st)
             then ({| all_ids := all_ids st;
                      duplicate_ids := set_add k (duplicate_ids st) |}, None)
             else ({| all_ids := set_add k (all_ids st);
                      duplicate_ids := duplicate_ids st |}, None)
         end
    else (st, None).
Proof. reflexivity. Qed.

Lemma check_question_mono question st k :
  (set_in k (all_ids st) = true →
   set_in k (all_ids (fst (check_question question st))) = true)
  ∧ (set_in k (duplicate_ids st) = true →
     set_in k (duplicate_ids (fst (check_question question st))) = true).
Proof.
  destruct question as [| | | | |fields]; try (split; auto; fail).
  rewrite check_question_dict. cbn zeta.
  destruct (truthy _); [|split; auto].
  destruct (hash_key _) as [k'|e]; [|split; auto].
  destruct (set_in k' (all_ids st)); cbn [fst all_ids duplicate_ids];
    split; auto using set_in_add_mono.
Qed.

Lemma check_question_hashable question st :
  id_hashable question = true → snd (check_question question st) = None.
Proof.
  destruct question as [| | | | |fields]; try reflexivity.
  rewrite check_question_dict. unfold id_hashable, dict_get. cbn zeta.
  destruct (dict_lookup fields (lit "question_id")) as [[|b|n|s|items|fs]|];
    cbn [truthy hash_key]; intros H.
  - reflexivity.
  - destruct b; [destruct (set_in _ _)|]; reflexivity.
  - destruct (num_truthy n); [destruct (set_in _ _)|]; reflexivity.
  - destruct s; [|destruct (set_in _ _)]; reflexivity.
  - destruct items; [reflexivity|discriminate].
  - destruct fs; [reflexivity|discriminate].
  - reflexivity.
Qed.

(** A record that carries a non-empty ID string puts it in [all_ids], and
    in [duplicate_ids] when it was seen before. *)
Lemma check_question_has_id (s : pystr) question st :
  has_id s question = true →
  s ≠ [] →
  snd (check_question question st) = None
  ∧ set_in (KStr s) (all_ids (fst (check_question question st))) = true
  ∧ (set_in (KStr s) (all_ids st) = true →
     set_in (KStr s) (duplicate_ids (fst (check_question question st))) = true).
Proof.
  destruct question as [| | | | |fields]; try discriminate.
  rewrite check_question_dict. unfold has_id, dict_get. cbn zeta.
  destruct (dict_lookup fields (lit "question_id")) as [[| | |t| |]|]; try discriminate.
  intros Ht Hs. apply str_eqb_eq in Ht. subst t.
  destruct s as [|c s]; [congruence|]. cbn [truthy hash_key].
  destruct (set_in (KStr (c :: s)) (all_ids st)) eqn:E;
    cbn [fst snd all_ids duplicate_ids].
  - split; [reflexivity|]. split; [exact E|]. intros _. apply set_in_add_str.
  - split; [reflexivity|]. split; [apply set_in_add_str|]. discriminate.
Qed.

Lemma check_questions_mono questions st k :
  (set_in k (all_ids st) = true →
   set_in k (all_ids (fst (check_questions questions st))) = true)
  ∧ (set_in k (duplicate_ids st) = true →
     set_in k (duplicate_ids (fst (check_questions questions st))) = true).
Proof.
  revert st. induction questions as [|question rest IH]; intros st; [split; auto|].
  cbn [check_questions].
  pose proof (check_question_mono question st k) as [Ha Hd].
  destruct (check_question question st) as [st' [e|]]; cbn [fst] in *.
  - split; auto.
  - destruct (IH st') as [Ha' Hd']. split; auto.
Qed.

Lemma check_questions_hashable questions st :
  forallb id_hashable questions = true → snd (check_questions questions st) = None.
Proof.
  revert st. induction questions as [|question rest IH]; intros st H; [reflexivity|].
  cbn [forallb] in H. apply andb_true_iff in H. destruct H as [Hq Hrest].
  cbn [check_questions].
  pose proof (check_question_hashable question st Hq) as Hn.
  destruct (check_question question st) as [st' err]. cbn [snd] in Hn. subst err.
  apply IH. exact Hrest.
Qed.

Lemma check_questions_app questions questions' st :
  snd (check_questions questions st) = None →
  check_questions (questions ++ questions') st
  = check_questions questions' (fst (check_questions questions st)).
Proof.
  revert st. induction questions as [|question rest IH]; intros st H; [reflexivity|].
  cbn [check_questions app] in *.
  destruct (check_question question st) as [st' [e|]]; [discriminate|].
  apply IH. exact H.
Qed.

Lemma check_questions_no_dict questions st :
  forallb (fun question => negb (is_dict question)) questions = true →
  check_questions questions st = (st, None).
Proof.
  induction questions as [|question rest IH]; intros H; [reflexivity|].
  cbn [forallb] in H. apply andb_true_iff in H. destruct H as [Hq Hrest].
  cbn [check_questions]. destruct question; try discriminate; cbn [check_question]; auto.
Qed.

(** One occurrence of the ID among records that all scan. *)
Lemma check_questions_seen (s : pystr) questions st :
  forallb id_hashable questions = true →
  s ≠ [] →
  (1 ≤ occurrences s questions)%nat →
  set_in (KStr s) (all_ids (fst (check_questions questions st))) = true
  ∧ (set_in (KStr s) (all_ids st) = true →
     set_in (KStr s) (duplicate_ids (fst (check_questions questions st))) = true).
Proof.
  intros Hh Hs. revert st Hh.
  induction questions as [|question rest IH]; intros st Hh Hocc;
    [cbn in Hocc; lia|].
  cbn [forallb] in Hh. apply andb_true_iff in Hh. destruct Hh as [Hq Hrest].
  unfold occurrences in Hocc. cbn [List.filter] in Hocc.
  cbn [check_questions].
  pose proof (check_question_hashable question st Hq) as Hn.
  pose proof (check_question_mono question st (KStr s)) as [Ha Hd].
  destruct (has_id s question) eqn:Hid.
  - destruct (check_question_has_id s question st Hid Hs) as (_ & Hin & Hdup).
    destruct (check_question question st) as [st' err]. cbn [fst snd] in *. subst err.
    destruct (check_questions_mono rest st' (KStr s)) as [Ha' Hd']. split; auto.
  - destruct (check_question question st) as [st' err]. cbn [fst snd] in *. subst err.
    destruct (IH st' Hrest Hocc) as [Hin Hdup]. split; auto.
Qed.

(** Two occurrences: the second one finds the first in [all_ids]. *)
Lemma check_questions_twice (s : pystr) questions st :
  forallb id_hashable questions = true →
  s ≠ [] →
  (2 ≤ occurrences s questions)%nat →
  set_in (KStr s) (duplicate_ids (fst (check_questions questions st))) = true.
Proof.
  intros Hh Hs. revert st Hh.
  induction questions as [|question rest IH]; intros st Hh Hocc;
    [cbn in Hocc; lia|].
  cbn [forallb] in Hh. apply andb_true_iff in Hh. destruct Hh as [Hq Hrest].
  unfold occurrences in Hocc. cbn [List.filter] in Hocc.
  cbn [check_questions].
  pose proof (check_question_hashable question st Hq) as Hn.
  destruct (has_id s question) eqn:Hid.
  - destruct (check_question_has_id s question st Hid Hs) as (_ & Hin & _).
    destruct (check_question question st) as [st' err]. cbn [fst snd] in *. subst err.
    cbn [length] in Hocc.
    apply (check_questions_seen s rest st' Hrest Hs); [unfold occurrences; lia|exact Hin].
  - destruct (check_question question st) as [st' err]. cbn [fst snd] in *. subst err.
    apply IH; assumption.
Qed.

End Verification.

Section Scan.
Context {R : Runtime}.
Implicit Types (st : id_sets) (f : file) (dir : directory).

Lemma corpus_records_cons f dir :
  corpus_records (f :: dir)
  = if excluded (fname f) then corpus_records dir
    else records_of f ++ corpus_records dir.
Proof. unfold corpus_records. cbn [List.filter]. destruct (excluded (fname f)); reflexivity. Qed.

(** A file whose records all scan contributes exactly its records. *)
Lemma check_file_records f st :
  forallb id_hashable (records_of f) = true →
  fst (check_file f st) = fst (check_questions (records_of f) st).
Proof.
  unfold check_file, load, records_of.
  destruct (fcontent f) as [document| | |]; try reflexivity.
  destruct document as [| | |s|items|fields]; try reflexivity; cbn [bind iterate].
  - intros _. rewrite check_questions_no_dict; [reflexivity|].
    induction s; [reflexivity|assumption].
  - intros H. pose proof (check_questions_hashable items st H) as Hn.
    destruct (check_questions items st) as [st' err]. cbn [snd] in Hn. subst err.
    reflexivity.
  - intros _. rewrite check_questions_no_dict; [reflexivity|].
    induction fields; [reflexivity|assumption].
Qed.

Lemma check_files_records dir st :
  forallb id_hashable (corpus_records dir) = true →
  fst (check_files dir st) = fst (check_questions (corpus_records dir) st).
Proof.
  revert st. induction dir as [|f rest IH]; intros st H; [reflexivity|].
  rewrite corpus_records_cons in *. cbn [check_files].
  destruct (excluded (fname f)); [apply IH; exact H|].
  rewrite forallb_app in H. apply andb_true_iff in H. destruct H as [Hf Hrest].
  rewrite check_questions_app by (apply check_questions_hashable; exact Hf).
  rewrite <- (check_file_records f st Hf), <- (IH _ Hrest).
  destruct (check_file f st) as [st' out]. cbn [fst].
  destruct (check_files rest st') as [st'' out']. reflexivity.
Qed.

Lemma set_add_truthy_key (v : json) k ids :
  truthy v = true →
  hash_key v = Ok k →
  (set_in KNone ids = false → set_in KNone (set_add k ids) = false)
  ∧ (set_in (KStr []) ids = false → set_in (KStr []) (set_add k ids) = false).
Proof.
  intros Ht Hk.
  assert (Hkey : key_eqb KNone k = false ∧ key_eqb (KStr []) k = false).
  { destruct v as [| | |s| |]; try discriminate; injection Hk as <-;
      try (split; reflexivity).
    destruct s; [discriminate|split; reflexivity]. }
  destruct Hkey as [Hn He].
  split; intros H; destruct (set_in _ (set_add k ids)) eqn:E; try reflexivity;
    apply set_in_add_inv in E; destruct E; congruence.
Qed.

Lemma check_question_no_absent_key question st :
  no_absent_key st → no_absent_key (fst (check_question question st)).
Proof.
  intros (H1 & H2 & H3 & H4).
  destruct question as [| | | | |fields]; try (repeat split; assumption).
  rewrite check_question_dict. cbn zeta.
  destruct (truthy _) eqn:Ht; [|repeat split; assumption].
  destruct (hash_key _) as [k|e] eqn:Hk; [|repeat split; assumption].
  destruct (set_add_truthy_key _ k (all_ids st) Ht Hk) as [Ha1 Ha2].
  destruct (set_add_truthy_key _ k (duplicate_ids st) Ht Hk) as [Hd1 Hd2].
  destruct (set_in k (all_ids st)); repeat split; cbn [fst all_ids duplicate_ids]; auto.
Qed.

Lemma check_questions_no_absent_key questions st :
  no_absent_key st → no_absent_key (fst (check_questions questions st)).
Proof.
  revert st. induction questions as [|question rest IH]; intros st H; [exact H|].
  cbn [check_questions].
  pose proof (check_question_no_absent_key question st H) as H'.
  destruct (check_question question st) as [st' [e|]]; cbn [fst] in *; auto.
Qed.

Lemma check_files_no_absent_key dir st :
  no_absent_key st → no_absent_key (fst (check_files dir st)).
Proof.
  revert st. induction dir as [|f rest IH]; intros st H; [exact H|].
  cbn [check_files]. destruct (excluded (fname f)); [auto|].
  assert (H' : no_absent_key (fst (check_file f st))).
  { unfold check_file. destruct (bind (load f) _) as [items|e]; [|exact H].
    pose proof (check_questions_no_absent_key items st H) as Hq.
    destruct (check_questions items st) as [st' [e|]]; exact Hq. }
  destruct (check_file f st) as [st' out]. cbn [fst] in H'.
  specialize (IH st' H'). destruct (check_files rest st') as [st'' out']. exact IH.
Qed.

(** Records without an ID do not count for the loop. *)
Lemma check_question_lacks_id question st :
  lacks_id question = true → check_question question st = (st, None).
Proof.
  destruct question as [| | | | |fields]; try discriminate.
  rewrite check_question_dict. unfold lacks_id, dict_get. cbn zeta.
  destruct (dict_lookup fields (lit "question_id")) as [[| | |s| |]|];
    try discriminate; try reflexivity.
  destruct s; [reflexivity|discriminate].
Qed.

Lemma check_questions_without_absent questions st :
  check_questions (List.filter (fun question => negb (lacks_id question)) questions) st
  = check_questions questions st.
Proof.
  revert st. induction questions as [|question rest IH]; intros st; [reflexivity|].
  cbn [List.filter check_questions].
  destruct (lacks_id question) eqn:Hl; cbn [negb].
  - rewrite (check_question_lacks_id _ _ Hl). apply IH.
  - cbn [check_questions]. destruct (check_question question st) as [st' [e|]];
      [reflexivity|apply IH].
Qed.

End Scan.

(** C5 (amended): when the [question_id] of every record of the files that
    are not excluded can be a set member (none is a non-empty list or dict),
    the scan goes through every record of these files in order, and every
    non-empty ID string that is on two or more records of the corpus is in
    the duplicates set after the scan. *)
Theorem C5_duplicate_id_is_reported `{R : Runtime} (dir : directory) :
  forallb id_hashable (corpus_records dir) = true →
  fst (scan dir)
  = fst (check_questions (corpus_records dir) {| all_ids := []; duplicate_ids := [] |})
  ∧ ∀ s : pystr,
      s ≠ [] →
      (2 ≤ occurrences s (corpus_records dir))%nat →
      set_in (KStr s) (duplicate_ids (fst (scan dir))) = true.
Proof.
  intros Hh. unfold scan.
  rewrite (check_files_records dir _ Hh). split; [reflexivity|].
  intros s Hs Hocc. apply check_questions_twice; assumption.
Qed.

(** Two files of one taxonomy pair: after the pass their first records both
    carry lr-wk-001, and the verification lists it. *)
Lemma C5_witness_cross_file_collision :
  question_id_after (Some [weaken_file_a; weaken_file_b]) 0 0
  = Some (JStr (lit "lr-wk-001"))
  ∧ question_id_after (Some [weaken_file_a; weaken_file_b]) 1 0
    = Some (JStr (lit "lr-wk-001"))
  ∧ set_in (KStr (lit "lr-wk-001"))
      (duplicate_ids (fst (scan (standardize_file <$> [weaken_file_a; weaken_file_b]))))
    = true
  ∧ PrintDuplicate (KStr (lit "lr-wk-001")) ∈ output (Some [weaken_file_a; weaken_file_b]).
Proof.
  split; [vm_compute; reflexivity|]. split; [vm_compute; reflexivity|].
  split.
  - apply (C5_duplicate_id_is_reported (standardize_file <$> [weaken_file_a; weaken_file_b])).
    + vm_compute. reflexivity.
    + discriminate.
    + vm_compute. lia.
  - apply list_elem_of_In. vm_compute. tauto.
Defined.

(** C5 as stated fails twice: an empty ID string on two records is not in
    the duplicates set, and neither is an ID on two records that follow, in
    their file, a record whose ID is a list. *)
Lemma C5_counterexample_unreported_duplicates :
  (files_after (Some [blank_ids_file]) = Some [blank_ids_file]
   ∧ occurrences [] (corpus_records [blank_ids_file]) = 2%nat
   ∧ set_in (KStr []) (duplicate_ids (fst (scan [blank_ids_file]))) = false)
  ∧ (files_after (Some [list_id_file]) = Some [list_id_file]
     ∧ occurrences (lit "dup") (corpus_records [list_id_file]) = 2%nat
     ∧ set_in (KStr (lit "dup")) (duplicate_ids (fst (scan [list_id_file]))) = false
     ∧ snd (scan [list_id_file]) = [PrintCheckError (lit "list-id.json") TypeError]).
Proof. vm_compute. repeat split. Qed.

(** C10: a record whose [question_id] is missing, [None] or the empty string
    leaves both sets as they are; a scan gives the same sets as a scan of the
    records that have an ID; and neither [None] nor the empty string is ever
    a member of the distinct IDs or of the duplicates. *)
Theorem C10_absent_ids_are_ignored `{R : Runtime} :
  (∀ question st, lacks_id question = true → check_question question st = (st, None))
  ∧ (∀ questions st,
       check_questions (List.filter (fun question => negb (lacks_id question)) questions) st
       = check_questions questions st)
  ∧ (∀ dir, no_absent_key (fst (scan dir))).
Proof.
  split; [exact check_question_lacks_id|].
  split; [exact check_questions_without_absent|].
  intros dir. apply check_files_no_absent_key. repeat split.
Qed.

Lemma C10_witness_five_records_without_id :
  forallb lacks_id (records_of absent_ids_file) = true
  ∧ check_question (unclassified JNull) {| all_ids := [KStr (lit "x")]; duplicate_ids := [] |}
    = ({| all_ids := [KStr (lit "x")]; duplicate_ids := [] |}, None)
  ∧ fst (scan [absent_ids_file]) = {| all_ids := []; duplicate_ids := [] |}
  ∧ PrintUnique 0 ∈ output (Some [absent_ids_file]).
Proof.
  destruct C10_absent_ids_are_ignored as (Hturn & _ & _).
  split; [reflexivity|]. split; [apply Hturn; reflexivity|].
  split; [vm_compute; reflexivity|].
  apply list_elem_of_In. vm_compute. tauto.
Defined.

Section Report.
Context {R : Runtime}.
Implicit Types (st : id_sets) (f : file) (dir : directory).

Lemma sorted_insert_str (s : pystr) (ks : list pykey) :
  forallb is_str_key ks = true →
  ∃ ks', sorted_insert (KStr s) ks = Ok ks' ∧ forallb is_str_key ks' = true.
Proof.
  induction ks as [|h ks IH]; intros H.
  - exists [KStr s]. split; reflexivity.
  - cbn [forallb] in H. apply andb_true_iff in H. destruct H as [Hh Hks].
    destruct h as [| |t]; try discriminate. cbn [sorted_insert key_ltb bind].
    destruct (str_ltb s t).
    + eexists. split; [reflexivity|]. cbn [forallb is_str_key andb]. exact Hks.
    + destruct (IH Hks) as (ks' & -> & Hks'). cbn [bind].
      eexists. split; [reflexivity|]. cbn [forallb is_str_key andb]. exact Hks'.
Qed.

(** [sorted] succeeds on strings. *)
Lemma py_sorted_str (ks : list pykey) :
  forallb is_str_key ks = true →
  ∃ ks', py_sorted ks = Ok ks' ∧ forallb is_str_key ks' = true.
Proof.
  induction ks as [|k ks IH]; intros H.
  - exists []. split; reflexivity.
  - cbn [forallb] in H. apply andb_true_iff in H. destruct H as [Hk Hks].
    destruct k as [| |s]; try discriminate.
    destruct (IH Hks) as (ks' & Hsorted & Hks'). cbn [py_sorted].
    rewrite Hsorted. cbn [bind]. apply sorted_insert_str. exact Hks'.
Qed.

Lemma sorted_insert_perm k ks ks' :
  sorted_insert k ks = Ok ks' → Permutation (k :: ks) ks'.
Proof.
  revert ks'. induction ks as [|h ks IH]; intros ks'; cbn [sorted_insert].
  - intros [= <-]. reflexivity.
  - destruct (key_ltb k h) as [[|]|e]; cbn [bind]; try discriminate.
    + intros [= <-]. reflexivity.
    + destruct (sorted_insert k ks) as [rest|e]; cbn [bind]; [|discriminate].
      intros [= <-]. rewrite perm_swap. apply perm_skip. apply IH. reflexivity.
Qed.

Lemma py_sorted_perm ks ks' : py_sorted ks = Ok ks' → Permutation ks ks'.
Proof.
  revert ks'. induction ks as [|k ks IH]; intros ks'; cbn [py_sorted].
  - intros [= <-]. reflexivity.
  - destruct (py_sorted ks) as [rest|e]; cbn [bind]; [|discriminate].
    intros H. apply sorted_insert_perm in H. rewrite <- H.
    apply perm_skip. apply IH. reflexivity.
Qed.

Lemma forallb_perm {A : Type} (test : A → bool) (l l' : list A) :
  Permutation l l' → forallb test l = true → forallb test l' = true.
Proof.
  intros Hp H. rewrite forallb_forall in *. intros x Hx. apply H.
  eapply Permutation_in; [symmetry; exact Hp|exact Hx].
Qed.

(** Every duplicate is listed when each of them can be printed. *)
Lemma print_duplicates_all (ids : list pykey) :
  forallb key_printable ids = true →
  print_duplicates ids = (map PrintDuplicate ids, None).
Proof.
  induction ids as [|k ids IH]; [reflexivity|]. cbn [forallb print_duplicates map].
  intros H. apply andb_true_iff in H. destruct H as [-> H]. rewrite (IH H). reflexivity.
Qed.

Lemma report_duplicates_str st :
  forallb is_str_key (duplicate_ids st) = true →
  forallb key_printable (duplicate_ids st) = true →
  ∃ ids,
    py_sorted (duplicate_ids st) = Ok ids
    ∧ report_duplicates st
      = (match duplicate_ids st with
         | [] => [PrintUnique (length (all_ids st))]
         | _ => PrintFound (length (duplicate_ids st)) :: map PrintDuplicate ids
         end, None).
Proof.
  intros H Hp. destruct (py_sorted_str _ H) as (ids & Hsorted & _).
  exists ids. split; [exact Hsorted|].
  unfold report_duplicates. rewrite Hsorted.
  rewrite (print_duplicates_all ids (forallb_perm _ _ _ (py_sorted_perm _ _ Hsorted) Hp)).
  destruct (duplicate_ids st); reflexivity.
Qed.

(** The shape of what the pass prints when the directory exists. *)
Lemma output_shape dir :
  ∃ out out_v,
    output (Some dir)
    = PrintStart :: out
        ++ PrintComplete (count_processed dir) (total_changed dir)
        :: PrintVerifying :: out_v ++ summary (fst (scan (standardize_file <$> dir)))
    ∧ uncaught (Some dir)
      = snd (report_duplicates (fst (scan (standardize_file <$> dir)))).
Proof.
  unfold output, uncaught, standardize_question_ids, verify_no_duplicates, summary.
  pose proof (process_files_map dir {| files_processed := 0; total_questions_updated := 0 |})
    as Hmap.
  pose proof (process_files_tally dir {| files_processed := 0; total_questions_updated := 0 |})
    as Htally.
  destruct (process_files dir _) as [[dir' t] out]. cbn [fst snd] in Hmap, Htally.
  subst dir' t. cbn [files_processed total_questions_updated Nat.add].
  destruct (scan (standardize_file <$> dir)) as [st out_v]. cbn [fst].
  destruct (report_duplicates st) as [out' err]. cbn [fst snd].
  exists out, out_v. split; reflexivity.
Qed.

(** A file that cannot be loaded is left alone, with a message. *)
Lemma process_file_load_error f e :
  load f = Raise e →
  process_file f = (f, [PrintProcessing (fname f); on_error (fname f) e], None).
Proof. intros H. unfold process_file. rewrite H. reflexivity. Qed.

Lemma load_error_kept f e : load f = Raise e → standardize_file f = f.
Proof.
  intros H. unfold standardize_file. destruct (excluded (fname f)); [reflexivity|].
  rewrite (process_file_load_error _ _ H). reflexivity.
Qed.

Lemma load_error_not_processed f e : load f = Raise e → processed f = false.
Proof.
  intros H. unfold processed. rewrite (process_file_load_error _ _ H). reflexivity.
Qed.

Lemma all_fail_kept dir :
  (∀ f, f ∈ dir → ∃ e, load f = Raise e) →
  standardize_file <$> dir = dir ∧ count_processed dir = 0%nat.
Proof.
  induction dir as [|f rest IH]; intros H; [split; reflexivity|].
  destruct (H f) as [e He]; [apply elem_of_cons; left; reflexivity|].
  destruct IH as [IH1 IH2]; [intros g Hg; apply H, elem_of_cons; right; exact Hg|].
  cbn [fmap list_fmap count_processed]. fold (fmap standardize_file rest).
  rewrite IH1, IH2, (load_error_kept _ _ He), (load_error_not_processed _ _ He).
  split; [reflexivity|]. destruct (excluded (fname f)); reflexivity.
Qed.

Lemma all_fail_scan dir st :
  (∀ f, f ∈ dir → ∃ e, load f = Raise e) →
  fst (check_files dir st) = st.
Proof.
  revert st. induction dir as [|f rest IH]; intros st H; [reflexivity|].
  destruct (H f) as [e He]; [apply elem_of_cons; left; reflexivity|].
  assert (Hrest : ∀ g, g ∈ rest → ∃ e, load g = Raise e)
    by (intros g Hg; apply H, elem_of_cons; right; exact Hg).
  cbn [check_files]. destruct (excluded (fname f)); [apply IH; exact Hrest|].
  unfold check_file. rewrite He. cbn [bind].
  specialize (IH st Hrest). destruct (check_files rest st) as [st' out]. exact IH.
Qed.

End Report.

(** C7 (amended): when the questions directory exists the pass handles every
    file on its own, prints the processed and updated counts and then the
    verification; a file that fails to load is left as it is with a message
    and the others are still handled.  When the duplicate IDs found are all
    strings that the console can encode (or there are none) no exception
    leaves the pass and the verification ends with its summary; in
    particular when every file fails to load the summary reports zero IDs.
    When the directory does not exist the pass prints one error line and
    returns. *)
Theorem C7_pass_reports_when_directory_exists `{R : Runtime} (dir : directory) :
  files_after (Some dir) = Some (standardize_file <$> dir)
  ∧ (∃ out out_v,
       output (Some dir)
       = PrintStart :: out
           ++ PrintComplete (count_processed dir) (total_changed dir)
           :: PrintVerifying :: out_v ++ summary (fst (scan (standardize_file <$> dir))))
  ∧ (∀ k f e,
       dir !! k = Some f →
       excluded (fname f) = false →
       load f = Raise e →
       (standardize_file <$> dir) !! k = Some f
       ∧ on_error (fname f) e ∈ output (Some dir))
  ∧ (forallb is_str_key (duplicate_ids (fst (scan (standardize_file <$> dir)))) = true →
     forallb key_printable (duplicate_ids (fst (scan (standardize_file <$> dir)))) = true →
     uncaught (Some dir) = None
     ∧ ∃ ids,
         py_sorted (duplicate_ids (fst (scan (standardize_file <$> dir)))) = Ok ids
         ∧ summary (fst (scan (standardize_file <$> dir)))
           = match duplicate_ids (fst (scan (standardize_file <$> dir))) with
             | [] => [PrintUnique (length (all_ids (fst (scan (standardize_file <$> dir)))))]
             | _ => PrintFound (length (duplicate_ids (fst (scan (standardize_file <$> dir)))))
                    :: map PrintDuplicate ids
             end)
  ∧ ((∀ f, f ∈ dir → ∃ e, load f = Raise e) →
     files_after (Some dir) = Some dir
     ∧ uncaught (Some dir) = None
     ∧ count_processed dir = 0%nat
     ∧ summary (fst (scan (standardize_file <$> dir))) = [PrintUnique 0])
  ∧ standardize_question_ids None = (None, [PrintDirMissing], None).
Proof.
  destruct (output_shape dir) as (out & out_v & Hout & Hun).
  split; [apply files_after_some|].
  split; [exists out, out_v; exact Hout|].
  split; [|split; [|split; [|reflexivity]]].
  - intros k f e Hk Hx He. split.
    + rewrite list_lookup_fmap, Hk. cbn [fmap option_fmap option_map].
      f_equal. eapply load_error_kept. exact He.
    + eapply output_some; [exact Hk|exact Hx|].
      rewrite (process_file_load_error _ _ He). cbn [fst snd].
      apply list_elem_of_In. right. left. reflexivity.
  - intros Hstr Hpr. destruct (report_duplicates_str _ Hstr Hpr) as (ids & Hsorted & Hrep).
    split; [rewrite Hun, Hrep; reflexivity|].
    exists ids. split; [exact Hsorted|]. unfold summary. rewrite Hrep. reflexivity.
  - intros Hfail. destruct (all_fail_kept dir Hfail) as [Hkept Hcount].
    assert (Hst : fst (scan (standardize_file <$> dir))
                  = {| all_ids := []; duplicate_ids := [] |}).
    { rewrite Hkept. apply all_fail_scan. exact Hfail. }
    split; [rewrite files_after_some, Hkept; reflexivity|].
    split; [rewrite Hun, Hst; reflexivity|].
    split; [exact Hcount|]. rewrite Hst. reflexivity.
Qed.

(** A directory in which no file can be loaded: both files are left alone,
    each with its message, and the report is printed with zero counts. *)
Lemma C7_witness_every_file_fails :
  load malformed_file = Raise JSONDecodeError
  ∧ load undecodable_file = Raise UnicodeError
  ∧ standardize_question_ids (Some [malformed_file; undecodable_file])
    = (Some [malformed_file; undecodable_file],
       [ PrintStart;
         PrintProcessing (lit "malformed.json"); PrintJsonError (lit "malformed.json");
         PrintProcessing (lit "latin1.json"); PrintError (lit "latin1.json") UnicodeError;
         PrintComplete 0 0;
         PrintVerifying;
         PrintCheckError (lit "malformed.json") JSONDecodeError;
         PrintCheckError (lit "latin1.json") UnicodeError;
         PrintUnique 0 ],
       None)
  ∧ uncaught (Some [malformed_file; undecodable_file]) = None.
Proof.
  destruct (C7_pass_reports_when_directory_exists [malformed_file; undecodable_file])
    as (_ & _ & _ & _ & Hfail & _).
  split; [reflexivity|]. split; [reflexivity|]. split; [vm_compute; reflexivity|].
  apply Hfail. intros f Hf. apply list_elem_of_In in Hf.
  destruct Hf as [<-|[<-|[]]]; eexists; reflexivity.
Defined.

(** C7 as stated fails when the questions directory does not exist: the pass
    prints the error line and returns, with no counts and no verification. *)
Lemma C7_counterexample_missing_directory :
  standardize_question_ids None = (None, [PrintDirMissing], None)
  ∧ output None = [PrintDirMissing]
  ∧ PrintVerifying ∉ output None.
Proof.
  split; [reflexivity|]. split; [reflexivity|].
  intros H. apply list_elem_of_In in H. destruct H as [H|[]]. discriminate.
Qed.

(** Beyond the claims: duplicated IDs of which one is a number and one a
    string make [sorted] raise outside every [try]; the exception leaves the
    pass after the count of duplicates was printed. *)
Example mixed_duplicates_leave_the_pass :
  files_after (Some [mixed_ids_file]) = Some [mixed_ids_file]
  ∧ duplicate_ids (fst (scan [mixed_ids_file])) = [KNum 7%Z; KStr (lit "a")]
  ∧ summary (fst (scan [mixed_ids_file])) = [PrintFound 2]
  ∧ uncaught (Some [mixed_ids_file]) = Some TypeError.
Proof. vm_compute. repeat split. Qed.

(** Beyond the claims: an example line that cannot be printed stops its file
    like any other exception of the record loop.  The file whose first record
    has U+D800 as its old ID is not processed and not written, no warning is
    printed for its second record, and a second pass does the same; the row
    of the report stops the script. *)
Example unprintable_change_stops_the_file :
  processed surrogate_id_file = false
  ∧ files_after (Some [surrogate_id_file]) = Some [surrogate_id_file]
  ∧ output (Some [surrogate_id_file])
    = [PrintStart; PrintProcessing (lit "surrogate.json");
       PrintError (lit "surrogate.json") UnicodeError;
       PrintComplete 0 0; PrintVerifying; PrintUnique 2]
  ∧ output (files_after (Some [surrogate_id_file])) = output (Some [surrogate_id_file])
  ∧ snd (main (Some [surrogate_id_file])) = Some UnicodeError.
Proof. vm_compute. repeat split. Qed.

(** * Further properties of the script *)

Section Numbering.

Lemma numeral_value (d : Decimal.uint) (acc : nat) :
  digits_value acc (lit (NilEmpty.string_of_uint d)) = Nat.of_uint_acc d acc.
Proof.
  revert acc. induction d as [|d IH|d IH|d IH|d IH|d IH|d IH|d IH|d IH|d IH|d IH];
    intros acc; [reflexivity|..];
    cbn [NilEmpty.string_of_uint Nat.of_uint_acc];
    change (lit (String ?c ?s)) with (N_of_ascii c :: lit s);
    cbn [digits_value]; rewrite IH, Nat.tail_mul_spec; f_equal;
    vm_compute (N.to_nat _); lia.
Qed.

Lemma zeros_value (k : nat) (ds : pystr) :
  digits_value 0 (repeat 48 k ++ ds) = digits_value 0 ds.
Proof. induction k as [|k IH]; [reflexivity|]. exact IH. Qed.

Lemma format_03d_value (n : nat) : digits_value 0 (format_03d n) = n.
Proof.
  unfold format_03d, decimal. cbn zeta. rewrite zeros_value, numeral_value.
  apply Unsigned.of_to.
Qed.

Lemma numeral_digits (d : Decimal.uint) :
  forallb is_digit (lit (NilEmpty.string_of_uint d)) = true.
Proof.
  induction d as [|d IH|d IH|d IH|d IH|d IH|d IH|d IH|d IH|d IH|d IH];
    [reflexivity|..]; cbn [NilEmpty.string_of_uint];
    change (lit (String ?c ?s)) with (N_of_ascii c :: lit s);
    cbn [forallb]; rewrite IH; reflexivity.
Qed.

Lemma format_03d_digits (n : nat) : forallb is_digit (format_03d n) = true.
Proof.
  unfold format_03d, decimal. cbn zeta. rewrite forallb_app, numeral_digits, andb_true_r.
  induction (3 - _)%nat as [|k IH]; [reflexivity|exact IH].
Qed.

Lemma format_03d_length (n : nat) : (3 ≤ length (format_03d n))%nat.
Proof.
  unfold format_03d. cbn zeta. rewrite length_app, repeat_length. lia.
Qed.

Lemma format_03d_inj (n m : nat) : format_03d n = format_03d m → n = m.
Proof.
  intros H. rewrite <- (format_03d_value n), <- (format_03d_value m), H. reflexivity.
Qed.

Lemma format_03d_no_hyphen (n : nat) : 45 ∉ format_03d n.
Proof.
  intros Hin. apply list_elem_of_In in Hin.
  pose proof (format_03d_digits n) as Hd. rewrite forallb_forall in Hd.
  specialize (Hd _ Hin). discriminate.
Qed.

(** A string splits in one way at its last hyphen. *)
Lemma split_at_last_hyphen (a a' d d' : pystr) :
  45 ∉ d → 45 ∉ d' →
  a ++ lit "-" ++ d = a' ++ lit "-" ++ d' →
  a = a' ∧ d = d'.
Proof.
  change (lit "-") with [45]. cbn [app]. intros Hd Hd'.
  revert a'. induction a as [|c a IH]; intros [|c' a'] H; cbn [app] in H.
  - injection H as ->. auto.
  - injection H as <- ->. exfalso. apply Hd.
    apply elem_of_app. right. apply elem_of_cons. left. reflexivity.
  - injection H as -> <-. exfalso. apply Hd'.
    apply elem_of_app. right. apply elem_of_cons. left. reflexivity.
  - injection H as -> H. destruct (IH _ H) as [-> ->]. auto.
Qed.

Lemma computed_id_inj (code code' : pystr) (i i' : nat) :
  code ++ lit "-" ++ format_03d (i + 1) = code' ++ lit "-" ++ format_03d (i' + 1)
  ↔ code = code' ∧ i = i'.
Proof.
  split.
  - intros H. apply split_at_last_hyphen in H; try apply format_03d_no_hyphen.
    destruct H as [-> H]. apply format_03d_inj in H. split; [reflexivity|lia].
  - intros [-> ->]. reflexivity.
Qed.

End Numbering.

(** X1: the number written by [{n:03d}] is made of decimal digits, at least
    three of them, and reading them back gives [n]; so different positions
    are written differently. *)
Theorem X1_position_is_read_back (n : nat) :
  digits_value 0 (format_03d n) = n
  ∧ forallb is_digit (format_03d n) = true
  ∧ (3 ≤ length (format_03d n))%nat
  ∧ ∀ m, format_03d n = format_03d m → n = m.
Proof.
  split; [apply format_03d_value|]. split; [apply format_03d_digits|].
  split; [apply format_03d_length|]. intros m. apply format_03d_inj.
Qed.

(** X2: two classified records of processed files, in one file or in two,
    carry the same ID after the pass exactly when they got the same code and
    stand at the same index of their files.  In particular two records of
    one file never share an ID. *)
Theorem X2_same_id_iff_same_code_and_index `{R : Runtime}
    (dir : directory) (k k' : nat) (f f' : file) (questions questions' : list json)
    (i i' : nat) (fields fields' : list (pystr * json)) (code code' : pystr) :
  dir !! k = Some f → dir !! k' = Some f' →
  excluded (fname f) = false → excluded (fname f') = false →
  processed f = true → processed f' = true →
  fcontent f = Parsed (JArr questions) → fcontent f' = Parsed (JArr questions') →
  questions !! i = Some (JObj fields) → questions' !! i' = Some (JObj fields') →
  classified (JObj fields) = true → classified (JObj fields') = true →
  get_standardized_code (section_of fields) (subsection_of fields) = Ok code →
  get_standardized_code (section_of fields') (subsection_of fields') = Ok code' →
  (question_id_after (Some dir) k i = question_id_after (Some dir) k' i'
   ↔ code = code' ∧ i = i')
  ∧ (k = k' → i ≠ i' →
     question_id_after (Some dir) k i ≠ question_id_after (Some dir) k' i').
Proof.
  intros Hk Hk' Hx Hx' Hp Hp' Hc Hc' Hi Hi' Hcl Hcl' Hcode Hcode'.
  destruct (classified_record_after _ _ _ _ _ _ Hk Hx Hp Hc Hi Hcl) as (c & Hc1 & _ & Hid).
  destruct (classified_record_after _ _ _ _ _ _ Hk' Hx' Hp' Hc' Hi' Hcl')
    as (c' & Hc1' & _ & Hid').
  rewrite Hcode in Hc1. injection Hc1 as <-.
  rewrite Hcode' in Hc1'. injection Hc1' as <-.
  rewrite Hid, Hid'.
  assert (Hiff : Some (JStr (code ++ lit "-" ++ format_03d (i + 1)))
                 = Some (JStr (code' ++ lit "-" ++ format_03d (i' + 1)))
                 ↔ code = code' ∧ i = i').
  { rewrite <- computed_id_inj. split; [intros [= H]; exact H|intros ->; reflexivity]. }
  split; [exact Hiff|].
  intros _ Hne H. apply Hiff in H. destruct H as [_ H]. contradiction.
Qed.

Lemma X2_witness_two_weaken_files :
  question_id_after (Some [weaken_file_a; weaken_file_b]) 0 0
  = question_id_after (Some [weaken_file_a; weaken_file_b]) 1 0
  ∧ question_id_after (Some [weaken_file_a; weaken_file_b]) 1 0
    ≠ question_id_after (Some [weaken_file_a; weaken_file_b]) 1 1.
Proof.
  destruct (X2_same_id_iff_same_code_and_index
              [weaken_file_a; weaken_file_b] 0 1 weaken_file_a weaken_file_b _ _ 0 0 _ _
              (lit "lr-wk") (lit "lr-wk")
              eq_refl eq_refl eq_refl eq_refl eq_refl eq_refl eq_refl eq_refl
              eq_refl eq_refl eq_refl eq_refl eq_refl eq_refl) as [Hsame _].
  destruct (X2_same_id_iff_same_code_and_index
              [weaken_file_a; weaken_file_b] 1 1 weaken_file_b weaken_file_b _ _ 0 1 _ _
              (lit "lr-wk") (lit "lr-wk")
              eq_refl eq_refl eq_refl eq_refl eq_refl eq_refl eq_refl eq_refl
              eq_refl eq_refl eq_refl eq_refl eq_refl eq_refl) as [_ Hdiff].
  split; [apply Hsame; split; reflexivity|].
  apply Hdiff; [reflexivity|discriminate].
Defined.

Section Taxonomy.
Context {R : Runtime}.

(** Every pair of the table resolves to its code. *)
Lemma table_code (section subsection code : pystr) :
  In (section, subsection, code) taxonomy_pairs →
  get_standardized_code (JStr section) (JStr subsection) = Ok code.
Proof.
  intros H. vm_compute in H.
  repeat (destruct H as [H|H];
          [injection H as <- <- <-; vm_compute; reflexivity|]).
  destruct H.
Qed.

(** The codes of the table are pairwise different. *)
Lemma table_codes_distinct (p q : pystr * pystr * pystr) :
  In p taxonomy_pairs → In q taxonomy_pairs → snd p = snd q → p = q.
Proof.
  assert (Hall : forallb (fun p => forallb (fun q =>
                   implb (str_eqb (snd p) (snd q))
                         (str_eqb (fst (fst p)) (fst (fst q))
                          && str_eqb (snd (fst p)) (snd (fst q))))
                   taxonomy_pairs) taxonomy_pairs = true)
    by (vm_compute; reflexivity).
  intros Hp Hq Hcode. rewrite forallb_forall in Hall.
  specialize (Hall p Hp). rewrite forallb_forall in Hall. specialize (Hall q Hq).
  apply str_eqb_eq in Hcode. rewrite Hcode in Hall. cbn [implb] in Hall.
  apply andb_true_iff in Hall. destruct Hall as [H1 H2].
  apply str_eqb_eq in H1, H2. apply str_eqb_eq in Hcode.
  destruct p as [[a b] c], q as [[a' b'] c']. cbn in *. congruence.
Qed.

End Taxonomy.

(** X3: the taxonomy table gives different codes to different pairs: two
    pairs of the table that resolve to the same code are the same pair. *)
Theorem X3_table_codes_are_unique `{R : Runtime}
    (section subsection code section' subsection' code' : pystr) :
  (section, subsection, code) ∈ taxonomy_pairs →
  (section', subsection', code') ∈ taxonomy_pairs →
  get_standardized_code (JStr section) (JStr subsection)
  = get_standardized_code (JStr section') (JStr subsection') →
  section = section' ∧ subsection = subsection'.
Proof.
  intros Hp Hq Heq. apply list_elem_of_In in Hp, Hq.
  rewrite (table_code _ _ _ Hp), (table_code _ _ _ Hq) in Heq. injection Heq as <-.
  pose proof (table_codes_distinct _ _ Hp Hq eq_refl) as H. injection H as -> ->.
  auto.
Qed.

Lemma X3_witness_inference_pairs :
  get_standardized_code (JStr (lit "Logical Reasoning")) (JStr (lit "Inference / Must Be True"))
  ≠ get_standardized_code (JStr (lit "Reading Comprehension")) (JStr (lit "Inference")).
Proof.
  intros Heq.
  destruct (X3_table_codes_are_unique
              (lit "Logical Reasoning") (lit "Inference / Must Be True") (lit "lr-infmbt")
              (lit "Reading Comprehension") (lit "Inference") (lit "rc-inf")) as [H _].
  - apply list_elem_of_In. vm_compute. do 4 right. left. reflexivity.
  - apply list_elem_of_In. vm_compute. do 18 right. left. reflexivity.
  - exact Heq.
  - discriminate H.
Defined.

Section SecondPass.
Context {R : Runtime}.
Implicit Types (f : file) (dir : directory) (questions : list json).

(** After its turn a record is not counted as changed by a further turn. *)
Lemma changes_after_turn i question updated question' updated' out :
  assign_question i question updated = (question', updated', out, None) →
  changes i question' = false.
Proof.
  destruct question as [| | | | |fields];
    try (rewrite assign_question_other by reflexivity; intros [= <- _ _]; reflexivity).
  turn_cases fields; try discriminate.
  - cbn zeta. intros Heq.
    apply (f_equal (fun r => fst (fst (fst r)))) in Heq. cbn [fst] in Heq.
    subst question'. unfold changes.
    set (new_id := code ++ lit "-" ++ format_03d (i + 1)).
    set (fields' := dict_set fields (lit "question_id") (JStr new_id)).
    assert (Hs : section_of fields' = section_of fields)
      by (apply dict_get_set_ne; discriminate).
    assert (Hb : subsection_of fields' = subsection_of fields)
      by (apply dict_get_set_ne; discriminate).
    rewrite Hs, Hb, Hk. unfold fields'. rewrite dict_lookup_set_eq.
    fold new_id. rewrite str_eqb_refl. apply andb_false_r.
  - intros [= <- _ _]. unfold changes. rewrite Hc. reflexivity.
Qed.

Lemma changed_count_after i questions updated questions' updated' out :
  assign_questions i questions updated = (questions', updated', out, None) →
  changed_count i questions' = 0%nat.
Proof.
  revert i updated questions' updated' out.
  induction questions as [|question rest IH]; intros i updated questions' updated' out H.
  - simpl in H. injection H as <- _ _. reflexivity.
  - simpl in H.
    destruct (assign_question i question updated) as [[[q1 u1] o1] [e1|]] eqn:Hq;
      [discriminate|].
    destruct (assign_questions (S i) rest u1) as [[[r1 u2] o2] e2] eqn:Hr.
    injection H as <- <- <- ->. cbn [changed_count].
    rewrite (changes_after_turn _ _ _ _ _ _ Hq), (IH _ _ _ _ _ Hr). reflexivity.
Qed.

(** The second pass processes the files the first pass processed. *)
Lemma processed_again f :
  processed (fst (fst (process_file f))) = processed f.
Proof.
  destruct (processed f) eqn:Hp.
  - destruct (processed_inv f Hp) as (qs & qs' & updated & out & Hc & Ha & _ & He & Hpf).
    rewrite Hpf. cbn [fst].
    destruct (assign_questions_again _ _ _ _ Ha) as (u2 & o2 & H2).
    unfold processed, process_file, load, dump. cbn [fcontent fwritable fname negb].
    rewrite H2, He. reflexivity.
  - revert Hp. unfold processed at 1. unfold process_file at 1 2. unfold load, dump.
    destruct f as [name c w]. cbn [fcontent fwritable fname].
    destruct c as [document| | |]; try (intros _; reflexivity).
    destruct document as [| | | |questions|]; try (intros _; reflexivity).
    destruct (assign_questions 0 questions 0) as [[[questions' updated] out] [e|]] eqn:Ha.
    + intros _. cbn [fst]. unfold processed, process_file, load. cbn [fcontent].
      rewrite Ha. reflexivity.
    + destruct w; cbn [negb].
      * destruct (json_encodable (JArr questions')); [discriminate|].
        intros _. reflexivity.
      * intros _. cbn [fst]. unfold processed, process_file, load, dump.
        cbn [fcontent fwritable negb]. rewrite Ha. reflexivity.
Qed.

Lemma changed_in_file_after f : changed_in_file (standardize_file f) = 0%nat.
Proof.
  unfold changed_in_file. rewrite standardize_file_name. unfold standardize_file.
  destruct (excluded (fname f)); [reflexivity|].
  rewrite processed_again. destruct (processed f) eqn:Hp; [|reflexivity].
  destruct (processed_inv f Hp) as (qs & qs' & updated & out & Hc & Ha & _ & _ & Hpf).
  rewrite Hpf. cbn [fst records_of fcontent]. eapply changed_count_after. exact Ha.
Qed.

Lemma second_pass_tally dir :
  total_changed (standardize_file <$> dir) = 0%nat
  ∧ count_processed (standardize_file <$> dir) = count_processed dir.
Proof.
  induction dir as [|f rest [IH1 IH2]]; [split; reflexivity|].
  cbn [fmap list_fmap total_changed count_processed].
  fold (fmap standardize_file rest).
  rewrite changed_in_file_after, IH1, IH2, standardize_file_name.
  split; [reflexivity|]. f_equal.
  unfold standardize_file. destruct (excluded (fname f)); [reflexivity|].
  rewrite processed_again. reflexivity.
Qed.

(** The cases in which the pass leaves a file alone. *)
Lemma standardize_file_untouched f :
  excluded (fname f) = true
  ∨ fwritable f = false
  ∨ (∀ questions, fcontent f ≠ Parsed (JArr questions))
  ∨ snd (assign_questions 0 (records_of f) 0) ≠ None →
  standardize_file f = f.
Proof.
  unfold standardize_file. destruct (excluded (fname f)); [reflexivity|].
  unfold process_file, load, dump, records_of.
  destruct f as [name c w]. cbn [fcontent fwritable fname].
  destruct c as [document| | |]; try reflexivity.
  destruct document as [| | | |questions|]; try reflexivity.
  destruct (assign_questions 0 questions 0) as [[[questions' updated] out] [e|]];
    [reflexivity|].
  destruct w; [|reflexivity]. cbn [snd].
  intros [H|[H|[H|H]]]; try discriminate.
  - exfalso. eapply H. reflexivity.
  - contradiction.
Qed.

Lemma standardize_file_writable f : fwritable (standardize_file f) = fwritable f.
Proof.
  unfold standardize_file. destruct (excluded (fname f)); [reflexivity|].
  unfold process_file, load, dump.
  destruct f as [name c w]. cbn [fcontent fwritable fname].
  destruct c as [document| | |]; try reflexivity.
  destruct document as [| | | |questions|]; try reflexivity.
  destruct (assign_questions 0 questions 0) as [[[questions' updated] out] [e|]];
    [reflexivity|].
  destruct w; [|reflexivity]. cbn [negb].
  destruct (json_encodable (JArr questions')); reflexivity.
Qed.

End SecondPass.

(** X4: a second pass, run on the files the first pass left, processes the
    same files and reports zero updated questions. *)
Theorem X4_second_pass_updates_nothing `{R : Runtime} (dir : directory) :
  PrintComplete (count_processed dir) 0 ∈ output (files_after (Some dir))
  ∧ count_processed (standardize_file <$> dir) = count_processed dir
  ∧ total_changed (standardize_file <$> dir) = 0%nat.
Proof.
  destruct (second_pass_tally dir) as [Ht Hc].
  split; [|split; [exact Hc|exact Ht]].
  rewrite files_after_some.
  pose proof (output_complete (standardize_file <$> dir)) as H.
  rewrite Ht, Hc in H. exact H.
Qed.

(** X5: the pass neither adds, removes nor renames a file, and it leaves a
    file exactly as it is when the file is excluded by name, cannot be
    opened for writing, does not hold a JSON array, or has a record on which
    the loop raises. *)
Theorem X5_files_the_pass_leaves_alone `{R : Runtime} (dir : directory) :
  ∃ dir',
    files_after (Some dir) = Some dir'
    ∧ length dir' = length dir
    ∧ ∀ k f,
        dir !! k = Some f →
        ∃ f', dir' !! k = Some f'
              ∧ fname f' = fname f
              ∧ (excluded (fname f) = true
                 ∨ fwritable f = false
                 ∨ (∀ questions, fcontent f ≠ Parsed (JArr questions))
                 ∨ snd (assign_questions 0 (records_of f) 0) ≠ None →
                 f' = f).
Proof.
  exists (standardize_file <$> dir). split; [apply files_after_some|].
  split; [apply length_fmap|].
  intros k f Hk. exists (standardize_file f).
  rewrite list_lookup_fmap, Hk. split; [reflexivity|].
  split; [apply standardize_file_name|apply standardize_file_untouched].
Qed.

Lemma X4_witness_second_pass_on_example :
  PrintComplete 1 2 ∈ output (Some [strengthen_file; broken_file])
  ∧ PrintComplete 1 0 ∈ output (files_after (Some [strengthen_file; broken_file])).
Proof.
  destruct (X4_second_pass_updates_nothing [strengthen_file; broken_file]) as (H & _).
  split; [|exact H].
  apply list_elem_of_In. vm_compute. tauto.
Defined.

Lemma X5_witness_broken_file_kept :
  ∃ dir', files_after (Some [strengthen_file; broken_file]) = Some dir'
          ∧ length dir' = 2%nat
          ∧ dir' !! 1%nat = Some broken_file.
Proof.
  destruct (X5_files_the_pass_leaves_alone [strengthen_file; broken_file])
    as (dir' & Hdir & Hlen & Hfiles).
  exists dir'. split; [exact Hdir|]. split; [exact Hlen|].
  destruct (Hfiles 1%nat broken_file eq_refl) as (f' & Hk & _ & Hkept).
  rewrite Hk. f_equal. apply Hkept. right. right. right. vm_compute. discriminate.
Defined.

Section Soundness.
Context {R : Runtime}.
Implicit Types (st : id_sets) (k : pykey) (ids : pyset) (questions seen : list json).

Lemma occurrences_app (s : pystr) seen questions :
  occurrences s (seen ++ questions)
  = (occurrences s seen + occurrences s questions)%nat.
Proof. unfold occurrences. rewrite List.filter_app, length_app. reflexivity. Qed.

Lemma backed_by_more st seen questions :
  backed_by st seen → backed_by st (seen ++ questions).
Proof.
  intros [Ha Hd]. split; intros s H; rewrite occurrences_app.
  - specialize (Ha s H). lia.
  - destruct (Hd s H) as [H2 Hin]. split; [lia|exact Hin].
Qed.

(** A string key comes from a record that carries that string. *)
Lemma hash_key_string (fields : list (pystr * json)) (s : pystr) k :
  hash_key (dict_get fields (lit "question_id") JNull) = Ok k →
  key_eqb (KStr s) k = true →
  has_id s (JObj fields) = true.
Proof.
  unfold has_id, dict_get.
  destruct (dict_lookup fields (lit "question_id")) as [[| | |t| |]|];
    cbn [hash_key]; intros [= <-]; cbn [key_eqb]; try discriminate.
  intros H. apply str_eqb_eq in H. subst t. apply str_eqb_refl.
Qed.

Lemma check_question_backed question st seen :
  backed_by st seen → backed_by (fst (check_question question st)) (seen ++ [question]).
Proof.
  intros Hb. pose proof (backed_by_more st seen [question] Hb) as Hmore.
  destruct question as [| | | | |fields]; try exact Hmore.
  rewrite check_question_dict. cbn zeta.
  destruct (truthy _); [|exact Hmore].
  destruct (hash_key _) as [k|e] eqn:Hk; [|exact Hmore].
  destruct Hb as [Ha Hd]. destruct Hmore as [Ha' Hd'].
  assert (Hone : ∀ s, key_eqb (KStr s) k = true →
            occurrences s (seen ++ [JObj fields]) = S (occurrences s seen)).
  { intros s Hs. rewrite occurrences_app. unfold occurrences at 2. cbn [List.filter].
    rewrite (hash_key_string _ _ _ Hk Hs). cbn [length]. lia. }
  destruct (set_in k (all_ids st)) eqn:Hin; cbn [fst]; split;
    cbn [all_ids duplicate_ids]; intros s H.
  - apply Ha'. exact H.
  - apply set_in_add_inv in H. destruct H as [H|H]; [apply Hd'; exact H|].
    assert (Hs : set_in (KStr s) (all_ids st) = true).
    { destruct k as [| |t]; try discriminate. cbn [key_eqb] in H.
      apply str_eqb_eq in H. subst t. exact Hin. }
    split; [|exact Hs]. rewrite (Hone s H). specialize (Ha s Hs). lia.
  - apply set_in_add_inv in H. destruct H as [H|H]; [apply Ha'; exact H|].
    rewrite (Hone s H). lia.
  - destruct (Hd' s H) as [H2 Hs]. split; [exact H2|].
    apply set_in_add_mono. exact Hs.
Qed.

Lemma check_questions_backed questions st seen :
  backed_by st seen → backed_by (fst (check_questions questions st)) (seen ++ questions).
Proof.
  revert st seen. induction questions as [|question rest IH]; intros st seen Hb.
  - rewrite app_nil_r. exact Hb.
  - cbn [check_questions].
    pose proof (check_question_backed question st seen Hb) as Hq.
    replace (seen ++ question :: rest) with ((seen ++ [question]) ++ rest)
      by (rewrite <- app_assoc; reflexivity).
    destruct (check_question question st) as [st' [e|]]; cbn [fst] in *.
    + apply backed_by_more. exact Hq.
    + apply IH. exact Hq.
Qed.

Lemma check_file_backed f st seen :
  backed_by st seen → backed_by (fst (check_file f st)) (seen ++ records_of f).
Proof.
  intros Hb. pose proof (backed_by_more st seen (records_of f) Hb) as Hmore.
  unfold check_file, load, records_of in *.
  destruct (fcontent f) as [document| | |]; try exact Hmore.
  destruct document as [| | |s|items|fields]; try exact Hmore; cbn [bind iterate].
  - rewrite check_questions_no_dict; [exact Hmore|].
    induction s; [reflexivity|assumption].
  - pose proof (check_questions_backed items st seen Hb) as H.
    destruct (check_questions items st) as [st' [e|]]; exact H.
  - rewrite check_questions_no_dict; [exact Hmore|].
    induction fields; [reflexivity|assumption].
Qed.

Lemma check_files_backed (dir : directory) st seen :
  backed_by st seen → backed_by (fst (check_files dir st)) (seen ++ corpus_records dir).
Proof.
  revert st seen. induction dir as [|f rest IH]; intros st seen Hb.
  - cbn. rewrite app_nil_r. exact Hb.
  - rewrite corpus_records_cons. cbn [check_files].
    destruct (excluded (fname f)); [apply IH; exact Hb|].
    pose proof (check_file_backed f st seen Hb) as Hf.
    destruct (check_file f st) as [st' out]. cbn [fst] in Hf.
    specialize (IH st' _ Hf). rewrite <- app_assoc in IH.
    destruct (check_files rest st') as [st'' out']. exact IH.
Qed.

(** The count of distinct IDs when no duplicate was found. *)
Lemma check_question_counted question st :
  snd (check_question question st) = None →
  duplicate_ids (fst (check_question question st)) = [] →
  duplicate_ids st = []
  ∧ length (all_ids (fst (check_question question st)))
    = (length (all_ids st) + (if carries_id question then 1 else 0))%nat.
Proof.
  destruct question as [| | | | |fields]; try (cbn; intros _ ->; split; [reflexivity|lia]).
  rewrite check_question_dict. cbn zeta. unfold carries_id.
  destruct (truthy _); [|cbn; intros _ ->; split; [reflexivity|lia]].
  destruct (hash_key _) as [k|e]; [|discriminate].
  destruct (set_in k (all_ids st)) eqn:Hin; cbn [fst snd all_ids duplicate_ids];
    intros _ Hd.
  - exfalso. unfold set_add in Hd.
    destruct (set_in k (duplicate_ids st)) eqn:E.
    + rewrite Hd in E. discriminate.
    + destruct (duplicate_ids st); discriminate.
  - split; [exact Hd|]. unfold set_add. rewrite Hin, length_app. reflexivity.
Qed.

Lemma check_questions_counted questions st :
  forallb id_hashable questions = true →
  duplicate_ids (fst (check_questions questions st)) = [] →
  duplicate_ids st = []
  ∧ length (all_ids (fst (check_questions questions st)))
    = (length (all_ids st) + length (List.filter carries_id questions))%nat.
Proof.
  revert st. induction questions as [|question rest IH]; intros st Hh Hd.
  - cbn in *. split; [exact Hd|lia].
  - cbn [forallb] in Hh. apply andb_true_iff in Hh. destruct Hh as [Hq Hrest].
    cbn [check_questions] in *.
    pose proof (check_question_hashable question st Hq) as Hn.
    pose proof (check_question_counted question st Hn) as Hc.
    destruct (check_question question st) as [st' err]. cbn [fst snd] in *. subst err.
    destruct (IH st' Hrest Hd) as [Hd' Hlen].
    destruct (Hc Hd') as [Hd0 Hlen0]. split; [exact Hd0|].
    rewrite Hlen, Hlen0. cbn [List.filter].
    destruct (carries_id question); cbn [length]; lia.
Qed.

End Soundness.

(** X6: the verification reports no string by mistake: an ID string in the
    duplicates set is also in the set of all IDs and is on at least two
    records of the files that are not excluded, and an ID string in the set
    of all IDs is on at least one.  When every ID can be a set member, a
    non-empty string is thus in the duplicates set exactly when it is on two
    or more records. *)
Theorem X6_reported_duplicates_are_real `{R : Runtime} (dir : directory) (s : pystr) :
  (set_in (KStr s) (duplicate_ids (fst (scan dir))) = true →
   (2 ≤ occurrences s (corpus_records dir))%nat
   ∧ set_in (KStr s) (all_ids (fst (scan dir))) = true)
  ∧ (set_in (KStr s) (all_ids (fst (scan dir))) = true →
     (1 ≤ occurrences s (corpus_records dir))%nat)
  ∧ (forallb id_hashable (corpus_records dir) = true →
     s ≠ [] →
     (set_in (KStr s) (duplicate_ids (fst (scan dir))) = true
      ↔ (2 ≤ occurrences s (corpus_records dir))%nat)).
Proof.
  assert (Hb : backed_by (fst (scan dir)) (corpus_records dir)).
  { unfold scan. apply (check_files_backed dir _ []).
    split; intros s' H; discriminate. }
  destruct Hb as [Ha Hd].
  split; [apply Hd|]. split; [apply Ha|].
  intros Hh Hs. split; [intros H; apply Hd; exact H|].
  intros Hocc. unfold scan. rewrite (check_files_records dir _ Hh).
  apply check_questions_twice; assumption.
Qed.

Lemma X6_witness_weaken_collision :
  set_in (KStr (lit "lr-wk-001"))
    (duplicate_ids (fst (scan (standardize_file <$> [weaken_file_a; weaken_file_b])))) = true
  ∧ (2 ≤ occurrences (lit "lr-wk-001")
           (corpus_records (standardize_file <$> [weaken_file_a; weaken_file_b])))%nat
  ∧ set_in (KStr (lit "lr-wk-002"))
      (duplicate_ids (fst (scan (standardize_file <$> [weaken_file_a; weaken_file_b])))) = false.
Proof.
  destruct (X6_reported_duplicates_are_real
              (standardize_file <$> [weaken_file_a; weaken_file_b]) (lit "lr-wk-001"))
    as (Hdup & _ & _).
  assert (Hin : set_in (KStr (lit "lr-wk-001"))
            (duplicate_ids (fst (scan (standardize_file <$> [weaken_file_a; weaken_file_b]))))
          = true) by (vm_compute; reflexivity).
  split; [exact Hin|]. split; [apply Hdup; exact Hin|].
  vm_compute. reflexivity.
Defined.

(** X7: when every ID can be a set member and the scan ends with an empty
    duplicates set, the number of distinct IDs it reports is the number of
    records that carry an ID. *)
Theorem X7_unique_count_is_number_of_ids `{R : Runtime} (dir : directory) :
  forallb id_hashable (corpus_records dir) = true →
  duplicate_ids (fst (scan dir)) = [] →
  length (all_ids (fst (scan dir))) = length (List.filter carries_id (corpus_records dir))
  ∧ summary (fst (scan dir))
    = [PrintUnique (length (List.filter carries_id (corpus_records dir)))].
Proof.
  intros Hh Hd.
  assert (Hlen : length (all_ids (fst (scan dir)))
                 = length (List.filter carries_id (corpus_records dir))).
  { revert Hd. unfold scan. rewrite (check_files_records dir _ Hh). intros Hd.
    destruct (check_questions_counted _ _ Hh Hd) as [_ H]. exact H. }
  split; [exact Hlen|].
  unfold summary, report_duplicates. rewrite Hd, Hlen. reflexivity.
Qed.

Lemma X7_witness_five_ids :
  summary (fst (scan (standardize_file <$> [strengthen_file])))
  = [PrintUnique 5].
Proof.
  destruct (X7_unique_count_is_number_of_ids (standardize_file <$> [strengthen_file]))
    as [_ H].
  - vm_compute. reflexivity.
  - vm_compute. reflexivity.
  - exact H.
Defined.

Section Listing.
Context {R : Runtime}.
Implicit Types (st : id_sets) (k : pykey) (ids ks : pyset).

Lemma str_ltb_asym (s t : pystr) : str_ltb s t = true → str_ltb t s = false.
Proof.
  revert t. induction s as [|c s IH]; intros [|d t]; cbn [str_ltb]; try congruence.
  rewrite orb_true_iff, andb_true_iff, N.ltb_lt, N.eqb_eq.
  intros [Hlt|[-> Hst]].
  - apply orb_false_iff. split; [apply N.ltb_ge; lia|].
    apply andb_false_iff. left. apply N.eqb_neq. lia.
  - rewrite N.ltb_irrefl, N.eqb_refl. cbn. apply IH. exact Hst.
Qed.











End Listing.

Section ListingStops.
Context {R : Runtime}.


End ListingStops.



Section SummaryReport.
Context {R : Runtime}.
Implicit Types (f : file) (dir : directory) (questions : list json).
Implicit Types (rows : list (pystr * file_info)).

Lemma last_cons {A : Type} (a d : A) (l : list A) : List.last (a :: l) d = List.last l a.
Proof.
  revert a d. induction l as [|b l IH]; intros a d; [reflexivity|].
  change (List.last (a :: b :: l) d) with (List.last (b :: l) d).
  rewrite (IH b d), (IH b a). reflexivity.
Qed.

(** The report's entry for a file that holds an array. *)
Lemma summarize_array f questions :
  fcontent f = Parsed (JArr questions) →
  summarize f
  = match questions with
    | [] => Got (info_of_empty (fname f))
    | x :: items =>
        match x, List.last items x with
        | JObj first, JObj final =>
            Got (info_of_ends (fname f) (S (length items)) first final)
        | _, _ => Failed (Script AttributeError)
        end
    end.
Proof.
  intros Hc. unfold summarize, load. rewrite Hc. cbn [of_result and_then].
  destruct questions as [|x items]; [reflexivity|].
  unfold file_info_of, field_or_na.
  cbn [py_len truthy first_item last_item and_then].
  destruct x as [| | | | |first]; try reflexivity.
  cbn [value_get and_then].
  destruct (List.last items (JObj first)) as [| | | | |final]; reflexivity.
Qed.

Lemma summarize_load_error f e : load f = Raise e → summarize f = Failed (Script e).
Proof. intros H. unfold summarize. rewrite H. reflexivity. Qed.

Lemma summarize_name f info : summarize f = Got info → info_file info = fname f.
Proof.
  unfold summarize, file_info_of.
  destruct (of_result (load f)) as [questions|e]; cbn [and_then]; [|discriminate].
  destruct (py_len questions); cbn [and_then]; [|discriminate].
  repeat (destruct (field_or_na _ _ _); cbn [and_then]; [|discriminate]).
  intros [= <-]. reflexivity.
Qed.

Lemma dict_set_new {V : Type} (d : list (pystr * V)) k v :
  dict_lookup d k = None → dict_set d k v = d ++ [(k, v)].
Proof.
  induction d as [|[k' w] d IH]; [reflexivity|]. cbn [dict_lookup dict_set].
  destruct (str_eqb k' k); [discriminate|]. intros H. cbn [app]. f_equal. auto.
Qed.

Lemma dict_lookup_app_new {V : Type} (d : list (pystr * V)) k k' v :
  k ≠ k' → dict_lookup d k' = None → dict_lookup (d ++ [(k, v)]) k' = None.
Proof.
  intros Hne. apply str_eqb_neq in Hne.
  induction d as [|[k0 w] d IH]; cbn [app dict_lookup].
  - rewrite Hne. reflexivity.
  - destruct (str_eqb k0 k'); [discriminate|]. exact IH.
Qed.

(** With distinct file names the report is the list of rows in the order of
    the listing, and the total is the sum of their counts. *)
Lemma summarize_files_rows dir st :
  NoDup (fname <$> dir) →
  (∀ f, f ∈ dir → dict_lookup (report st) (fname f) = None) →
  fst (summarize_files dir st)
  = {| report := report st ++ rows_of dir;
       total_questions := total_questions st + sum_counts (rows_of dir) |}.
Proof.
  revert st. induction dir as [|f rest IH]; intros st Hnd Hnew.
  - destruct st. cbn. rewrite app_nil_r. f_equal. lia.
  - rewrite fmap_cons in Hnd. apply NoDup_cons in Hnd. destruct Hnd as [Hf Hnd].
    assert (Hrest : ∀ g, g ∈ rest → dict_lookup (report st) (fname g) = None)
      by (intros g Hg; apply Hnew, elem_of_cons; right; exact Hg).
    cbn [summarize_files rows_of].
    destruct (excluded (fname f)); [apply IH; assumption|].
    destruct (summarize f) as [info|e].
    + rewrite IH; [|exact Hnd|].
      * cbn [report total_questions sum_counts snd].
        rewrite (dict_set_new _ _ _ (Hnew f ltac:(apply elem_of_cons; left; reflexivity))).
        rewrite <- app_assoc. f_equal. lia.
      * intros g Hg. cbn [report].
        rewrite (dict_set_new _ _ _ (Hnew f ltac:(apply elem_of_cons; left; reflexivity))).
        apply dict_lookup_app_new; [|apply Hrest; exact Hg].
        intros Heq. apply Hf. rewrite Heq. apply list_elem_of_fmap. exists g. auto.
    + specialize (IH st Hnd Hrest).
      destruct (summarize_files rest st) as [st' out]. exact IH.
Qed.

Lemma summarize_files_errors dir st f e :
  f ∈ dir → excluded (fname f) = false → summarize f = Failed e →
  PrintReadError (fname f) e ∈ snd (summarize_files dir st).
Proof.
  revert st. induction dir as [|g rest IH]; intros st Hin Hx He.
  - apply elem_of_nil in Hin. destruct Hin.
  - apply elem_of_cons in Hin. cbn [summarize_files]. destruct Hin as [<-|Hin].
    + rewrite Hx, He. destruct (summarize_files rest st) as [st' out].
      apply elem_of_cons. left. reflexivity.
    + destruct (excluded (fname g)); [apply IH; assumption|].
      destruct (summarize g) as [info|e']; [apply IH; assumption|].
      specialize (IH st Hin Hx He).
      destruct (summarize_files rest st) as [st' out]. cbn [snd] in *.
      apply elem_of_cons. right. exact IH.
Qed.

Lemma rows_of_length dir : length (rows_of dir) = length (List.filter summarized dir).
Proof.
  induction dir as [|f rest IH]; [reflexivity|].
  cbn [rows_of List.filter]. unfold summarized at 1.
  destruct (excluded (fname f)); cbn [negb andb]; [exact IH|].
  destruct (summarize f); cbn [length]; rewrite IH; reflexivity.
Qed.

Lemma rows_of_in dir k f info :
  dir !! k = Some f → excluded (fname f) = false → summarize f = Got info →
  In (fname f, info) (rows_of dir).
Proof.
  revert k. induction dir as [|g rest IH]; intros k Hk Hx Hs.
  - rewrite lookup_nil in Hk. discriminate.
  - cbn [rows_of]. destruct k as [|k].
    + injection Hk as ->. rewrite Hx, Hs. left. reflexivity.
    + simpl in Hk. specialize (IH k Hk Hx Hs).
      destruct (excluded (fname g)); [exact IH|].
      destruct (summarize g); [right|]; exact IH.
Qed.

(** Sorting the rows. *)
Lemma insert_row_perm row rows : Permutation (row :: rows) (insert_row row rows).
Proof.
  induction rows as [|h rows IH]; cbn [insert_row]; [reflexivity|].
  destruct (str_ltb (fst row) (fst h)); [reflexivity|].
  rewrite perm_swap. apply perm_skip. exact IH.
Qed.

Lemma sorted_rows_perm rows : Permutation rows (sorted_rows rows).
Proof.
  induction rows as [|row rows IH]; cbn [sorted_rows]; [reflexivity|].
  rewrite <- insert_row_perm. apply perm_skip. exact IH.
Qed.

Lemma insert_row_hd a row rows :
  HdRel row_le a rows → row_le a row → HdRel row_le a (insert_row row rows).
Proof.
  destruct rows as [|h rows]; cbn [insert_row]; intros Hh Hr.
  - constructor. exact Hr.
  - destruct (str_ltb (fst row) (fst h)); constructor; [exact Hr|].
    inversion Hh; subst. assumption.
Qed.

Lemma insert_row_sorted row rows :
  Sorted row_le rows → Sorted row_le (insert_row row rows).
Proof.
  induction rows as [|h rows IH]; cbn [insert_row]; intros Hs.
  - repeat constructor.
  - destruct (str_ltb (fst row) (fst h)) eqn:Hlt.
    + constructor; [exact Hs|]. constructor. unfold row_le.
      apply str_ltb_asym. exact Hlt.
    + inversion Hs; subst. constructor; [apply IH; assumption|].
      apply insert_row_hd; [assumption|exact Hlt].
Qed.

Lemma sorted_rows_sorted rows : Sorted row_le (sorted_rows rows).
Proof.
  induction rows as [|row rows IH]; cbn [sorted_rows]; [constructor|].
  apply insert_row_sorted. exact IH.
Qed.

Lemma print_rows_all rows :
  forallb row_printable rows = true → print_rows rows = (map print_row rows, None).
Proof.
  induction rows as [|row rows IH]; [reflexivity|]. cbn [forallb print_rows map].
  intros H. apply andb_true_iff in H. destruct H as [-> H]. rewrite (IH H). reflexivity.
Qed.

Lemma print_rows_stop rows :
  forallb row_printable rows = false →
  ∃ listed row rest,
    rows = listed ++ row :: rest
    ∧ forallb row_printable listed = true
    ∧ row_printable row = false
    ∧ print_rows rows = (map print_row listed, Some UnicodeError).
Proof.
  induction rows as [|r rows IH]; [discriminate|]. cbn [forallb print_rows].
  destruct (row_printable r) eqn:Hr; cbn [andb].
  - intros H. destruct (IH H) as (listed & row & rest & -> & Hl & Hd & Hp).
    exists (r :: listed), row, rest. rewrite Hp. cbn [forallb map]. rewrite Hr, Hl.
    repeat split; auto.
  - intros _. exists [], r, rows. repeat split; auto.
Qed.

Lemma generate_summary_report_rows dir :
  NoDup (fname <$> dir) →
  generate_summary_report dir
  = (PrintGenerating
       :: snd (summarize_files dir {| report := []; total_questions := 0 |})
       ++ PrintTotals (length (rows_of dir)) (sum_counts (rows_of dir))
       :: fst (print_rows (sorted_rows (rows_of dir))),
     match snd (print_rows (sorted_rows (rows_of dir))) with
     | None => Ok (rows_of dir)
     | Some e => Raise e
     end).
Proof.
  intros Hnd. unfold generate_summary_report.
  pose proof (summarize_files_rows dir {| report := []; total_questions := 0 |} Hnd
                (fun _ _ => eq_refl)) as H.
  destruct (summarize_files dir _) as [st out]. cbn [fst snd] in *. subst st.
  cbn [report total_questions app Nat.add].
  destruct (print_rows (sorted_rows (rows_of dir))) as [rows_out err]. reflexivity.
Qed.

End SummaryReport.

(** X9: the report has an entry for a file that holds an array exactly when
    the array is empty or its first and last elements are dicts; the entry
    counts all elements.  An empty array gives N/A everywhere.  A file that
    cannot be loaded, an array whose first or last element is not a dict,
    and a non-empty object are reported as read errors and have no entry. *)
Theorem X9_which_files_the_report_lists `{R : Runtime} (f : file) :
  (∀ e, load f = Raise e → summarize f = Failed (Script e))
  ∧ (∀ questions,
       fcontent f = Parsed (JArr questions) →
       (ends_are_dicts questions = true →
        ∃ info, summarize f = Got info
                ∧ info_file info = fname f
                ∧ info_count info = length questions)
       ∧ (ends_are_dicts questions = false →
          summarize f = Failed (Script AttributeError)))
  ∧ (fcontent f = Parsed (JArr []) → summarize f = Got (info_of_empty (fname f)))
  ∧ (∀ fields,
       fcontent f = Parsed (JObj fields) → fields ≠ [] → summarize f = Failed KeyError).
Proof.
  split; [apply summarize_load_error|]. split; [|split].
  - intros questions Hc. rewrite (summarize_array _ _ Hc).
    destruct questions as [|x items].
    + split; [|discriminate]. intros _. eexists. repeat split.
    + cbn [ends_are_dicts].
      destruct x as [| | | | |first]; cbn [is_dict andb];
        try (split; [discriminate|reflexivity]).
      destruct (List.last items (JObj first)) as [| | | | |final]; cbn [is_dict];
        try (split; [discriminate|reflexivity]).
      split; [|discriminate]. intros _. eexists. repeat split.
  - intros Hc. apply (summarize_array _ _ Hc).
  - intros fields Hc Hne. unfold summarize, load. rewrite Hc.
    destruct fields; [contradiction|reflexivity].
Qed.

Lemma X9_witness_note_first_and_empty :
  processed note_first_file = true
  ∧ summarize note_first_file = Failed (Script AttributeError)
  ∧ summarize empty_file = Got (info_of_empty (lit "empty.json"))
  ∧ summarize object_file = Failed KeyError
  ∧ summarize malformed_file = Failed (Script JSONDecodeError).
Proof.
  destruct (X9_which_files_the_report_lists note_first_file) as (_ & Hnote & _).
  destruct (X9_which_files_the_report_lists empty_file) as (_ & _ & Hempty & _).
  destruct (X9_which_files_the_report_lists object_file) as (_ & _ & _ & Hobject).
  destruct (X9_which_files_the_report_lists malformed_file) as (Hload & _).
  split; [reflexivity|].
  split; [apply (Hnote _ eq_refl); reflexivity|].
  split; [apply Hempty; reflexivity|].
  split; [apply (Hobject _ eq_refl); discriminate|].
  apply Hload. reflexivity.
Defined.

(** X10: for a listing with distinct file names the report has one entry
    for each file that is not excluded and can be summarized, in the order
    of the listing; the totals printed are the number of these entries and
    the sum of their counts; each file that cannot be summarized has its
    read error printed; and the report is returned when every row can be
    printed, while the function raises when one cannot. *)
Theorem X10_report_totals `{R : Runtime} (dir : directory) :
  NoDup (fname <$> dir) →
  length (rows_of dir) = length (List.filter summarized dir)
  ∧ PrintTotals (length (rows_of dir)) (sum_counts (rows_of dir))
    ∈ fst (generate_summary_report dir)
  ∧ (∀ f e, f ∈ dir → excluded (fname f) = false → summarize f = Failed e →
            PrintReadError (fname f) e ∈ fst (generate_summary_report dir))
  ∧ (forallb row_printable (rows_of dir) = true →
     snd (generate_summary_report dir) = Ok (rows_of dir))
  ∧ (forallb row_printable (rows_of dir) = false →
     snd (generate_summary_report dir) = Raise UnicodeError).
Proof.
  intros Hnd. rewrite (generate_summary_report_rows dir Hnd). cbn [fst snd].
  split; [apply rows_of_length|]. split; [|split; [|split]].
  - apply elem_of_cons. right. apply elem_of_app. right.
    apply elem_of_cons. left. reflexivity.
  - intros f e Hin Hx He. apply elem_of_cons. right. apply elem_of_app. left.
    eapply summarize_files_errors; eassumption.
  - intros Hp. rewrite print_rows_all; [reflexivity|].
    eapply forallb_perm; [apply sorted_rows_perm|exact Hp].
  - intros Hp.
    destruct (forallb row_printable (sorted_rows (rows_of dir))) eqn:Hs.
    + rewrite (forallb_perm _ _ _ (Permutation_sym (sorted_rows_perm _)) Hs) in Hp.
      discriminate.
    + destruct (print_rows_stop _ Hs) as (listed & row & rest & _ & _ & _ & ->).
      reflexivity.
Qed.

Lemma X10_witness_three_files :
  PrintTotals 2 5 ∈ fst (generate_summary_report [strengthen_file; note_first_file; empty_file])
  ∧ PrintReadError (lit "notes.json") (Script AttributeError)
    ∈ fst (generate_summary_report [strengthen_file; note_first_file; empty_file])
  ∧ snd (generate_summary_report [strengthen_file; note_first_file; empty_file])
    = Ok (rows_of [strengthen_file; note_first_file; empty_file])
  ∧ snd (generate_summary_report [surrogate_id_file]) = Raise UnicodeError.
Proof.
  destruct (X10_report_totals [strengthen_file; note_first_file; empty_file])
    as (_ & Htotals & Herrors & Hok & _).
  - apply NoDup_ListNoDup. vm_compute.
    repeat (constructor; [intros H; vm_compute in H; intuition discriminate|]).
    constructor.
  - destruct (X10_report_totals [surrogate_id_file]) as (_ & _ & _ & _ & Hraise).
    + apply NoDup_singleton.
    + split; [exact Htotals|]. split; [|split].
      * apply (Herrors note_first_file).
        -- apply list_elem_of_In. right. left. reflexivity.
        -- reflexivity.
        -- reflexivity.
      * apply Hok. reflexivity.
      * apply Hraise. reflexivity.
Defined.

(** X11: the file details follow the totals, one row for each entry of the
    report, in ascending order of file name; all of them when each can be
    printed, otherwise those before the first that cannot, where the
    function raises. *)
Theorem X11_rows_are_sorted_by_name `{R : Runtime} (dir : directory) :
  ∃ errors files questions rows,
    Permutation (report (fst (summarize_files dir {| report := []; total_questions := 0 |})))
                rows
    ∧ Sorted row_le rows
    ∧ (forallb row_printable rows = true →
       generate_summary_report dir
       = (PrintGenerating :: errors ++ PrintTotals files questions :: map print_row rows,
          Ok (report (fst (summarize_files dir
                             {| report := []; total_questions := 0 |})))))
    ∧ (forallb row_printable rows = false →
       ∃ listed row rest,
         rows = listed ++ row :: rest
         ∧ forallb row_printable listed = true
         ∧ row_printable row = false
         ∧ generate_summary_report dir
           = (PrintGenerating :: errors
                ++ PrintTotals files questions :: map print_row listed,
              Raise UnicodeError)).
Proof.
  unfold generate_summary_report.
  destruct (summarize_files dir _) as [st out]. cbn [fst snd].
  exists out, (length (report st)), (total_questions st), (sorted_rows (report st)).
  split; [apply sorted_rows_perm|]. split; [apply sorted_rows_sorted|]. split.
  - intros Hp. rewrite (print_rows_all _ Hp). reflexivity.
  - intros Hp. destruct (print_rows_stop _ Hp) as (listed & row & rest & Hp').
    exists listed, row, rest. destruct Hp' as (-> & Hl & Hr & ->). auto.
Qed.

Lemma X11_witness_rows_of_two_files :
  (∃ out, generate_summary_report [weaken_file_b; weaken_file_a]
          = (out, Ok (rows_of [weaken_file_b; weaken_file_a])))
  ∧ ∃ out, generate_summary_report [surrogate_id_file] = (out, Raise UnicodeError).
Proof.
  split.
  - destruct (X11_rows_are_sorted_by_name [weaken_file_b; weaken_file_a])
      as (errors & files & questions & rows & Hperm & _ & Hall & _).
    eexists. rewrite Hall; [reflexivity|].
    eapply forallb_perm; [exact Hperm|]. vm_compute. reflexivity.
  - destruct (X11_rows_are_sorted_by_name [surrogate_id_file])
      as (errors & files & questions & rows & Hperm & _ & _ & Hstop).
    destruct (forallb row_printable rows) eqn:Hrows.
    + apply (forallb_perm _ _ _ (Permutation_sym Hperm)) in Hrows.
      vm_compute in Hrows. discriminate Hrows.
    + destruct (Hstop eq_refl) as (listed & row & rest & _ & _ & _ & ->).
      eexists. reflexivity.
Defined.

Section AfterThePass.
Context {R : Runtime}.
Implicit Types (f : file) (dir : directory) (questions items : list json).

Lemma last_lookup_cons {A : Type} (x : A) (l : list A) :
  (x :: l) !! length l = Some (List.last l x).
Proof.
  revert x. induction l as [|y l IH]; intros x; [reflexivity|].
  cbn [length lookup list_lookup]. rewrite last_cons. apply IH.
Qed.

Lemma last_imap {A B : Type} (h : nat → A → B) (x : A) (l : list A) :
  List.last (imap (h ∘ S) l) (h 0%nat x) = h (length l) (List.last l x).
Proof.
  revert h x. induction l as [|y l IH]; intros h x; [reflexivity|].
  rewrite imap_cons, !last_cons. apply (IH (h ∘ S)).
Qed.

(** A classified record has its section and subsection. *)
Lemma classified_fields (fields : list (pystr * json)) default :
  classified (JObj fields) = true →
  dict_get fields (lit "section") default = section_of fields
  ∧ dict_get fields (lit "subsection") default = subsection_of fields.
Proof.
  unfold classified, section_of, subsection_of, dict_get. intros H.
  apply andb_true_iff in H. destruct H as [Hs Hb].
  destruct (dict_lookup fields (lit "section")); [|discriminate].
  destruct (dict_lookup fields (lit "subsection")); [|discriminate].
  split; reflexivity.
Qed.

Lemma assigned_classified i (fields : list (pystr * json)) code :
  classified (JObj fields) = true →
  get_standardized_code (section_of fields) (subsection_of fields) = Ok code →
  assigned i (JObj fields)
  = JObj (dict_set fields (lit "question_id")
            (JStr (code ++ lit "-" ++ format_03d (i + 1)))).
Proof.
  intros Hc Hk. unfold assigned. rewrite (assign_question_ok _ _ _ code Hc Hk).
  reflexivity.
Qed.

(** The report's entry for a processed file whose first and last records are
    classified. *)
Lemma summarize_after_pass dir k f x items first final code code' :
  dir !! k = Some f →
  excluded (fname f) = false →
  processed f = true →
  fcontent f = Parsed (JArr (x :: items)) →
  x = JObj first → List.last items x = JObj final →
  classified (JObj first) = true → classified (JObj final) = true →
  get_standardized_code (section_of first) (subsection_of first) = Ok code →
  get_standardized_code (section_of final) (subsection_of final) = Ok code' →
  summarize (standardize_file f)
  = Got {| info_file := fname f;
           info_count := S (length items);
           info_first_id := JStr (code ++ lit "-" ++ format_03d 1);
           info_last_id := JStr (code' ++ lit "-" ++ format_03d (S (length items)));
           info_section := section_of first;
           info_subsection := subsection_of first |}.
Proof.
  intros Hk Hx Hp Hc -> Hlast Hcl Hcl' Hcode Hcode'.
  destruct (processed_file_after _ _ _ _ Hk Hx Hp Hc) as (updated & out & _ & Hpf & _).
  assert (Hcontent : fcontent (standardize_file f)
            = Parsed (JArr (assigned 0 (JObj first) :: imap (assigned ∘ S) items))).
  { unfold standardize_file. rewrite Hx, Hpf. cbn [fst fcontent]. rewrite imap_cons.
    reflexivity. }
  rewrite (summarize_array _ _ Hcontent), standardize_file_name.
  pose proof (last_imap assigned (JObj first) items) as Hl.
  rewrite Hlast, (assigned_classified _ _ _ Hcl' Hcode') in Hl.
  rewrite (assigned_classified _ _ _ Hcl Hcode) in Hl |- *.
  rewrite Hl, length_imap. unfold info_of_ends.
  destruct (classified_fields first (JStr (lit "N/A")) Hcl) as [Hsec Hsub].
  rewrite (dict_get_set_ne first (lit "question_id") (lit "section")) by discriminate.
  rewrite (dict_get_set_ne first (lit "question_id") (lit "subsection")) by discriminate.
  rewrite Hsec, Hsub. unfold dict_get. rewrite !dict_lookup_set_eq.
  replace (length items + 1)%nat with (S (length items)) by lia. reflexivity.
Qed.

Lemma main_output (fs : option directory) :
  uncaught fs = None →
  main fs
  = (files_after fs,
     map FromPass (output fs)
       ++ map FromReport (fst (generate_summary_report (listing (files_after fs))))
       ++ match snd (generate_summary_report (listing (files_after fs))) with
          | Ok _ => [PrintReady]
          | Raise _ => []
          end,
     match snd (generate_summary_report (listing (files_after fs))) with
     | Ok _ => None
     | Raise e => Some e
     end).
Proof.
  unfold uncaught, files_after, output, main.
  destruct (standardize_question_ids fs) as [[fs' out] err]. cbn [fst snd].
  intros ->. destruct (generate_summary_report (listing fs')) as [out' [rows|e]];
    cbn [fst snd]; [reflexivity|]. rewrite app_nil_r. reflexivity.
Qed.

Lemma standardize_file_names dir :
  NoDup (fname <$> dir) → NoDup (fname <$> (standardize_file <$> dir)).
Proof.
  intros Hnd. rewrite <- list_fmap_compose.
  rewrite (list_fmap_ext _ fname dir); [exact Hnd|].
  intros _ g _. apply standardize_file_name.
Qed.

Lemma ready_not_in_report (out : list report_event) : PrintReady ∉ map FromReport out.
Proof.
  intros H. apply list_elem_of_In, in_map_iff in H. destruct H as (x & Hx & _).
  discriminate Hx.
Qed.

Lemma ready_not_in_pass (out : list event) : PrintReady ∉ map FromPass out.
Proof.
  intros H. apply list_elem_of_In, in_map_iff in H. destruct H as (x & Hx & _).
  discriminate Hx.
Qed.

End AfterThePass.

(** X12: when the pass ends normally the script goes on with the report on
    the files the pass left.  For a listing with distinct file names: when
    every row of that report can be printed, a processed file whose first
    and last records are classified has a row with the number of its
    records, the first code followed by -001, and the last code followed by
    the number of records in the pass's format, and the script ends with the
    ready line; when some row cannot be printed the script ends with the
    exception of that print and never prints the ready line. *)
Theorem X12_report_row_of_processed_file `{R : Runtime}
    (dir : directory) (k : nat) (f : file) (x : json) (items : list json)
    (first final : list (pystr * json)) (code code' : pystr) :
  NoDup (fname <$> dir) →
  uncaught (Some dir) = None →
  dir !! k = Some f →
  excluded (fname f) = false →
  processed f = true →
  fcontent f = Parsed (JArr (x :: items)) →
  x = JObj first → List.last items x = JObj final →
  classified (JObj first) = true → classified (JObj final) = true →
  get_standardized_code (section_of first) (subsection_of first) = Ok code →
  get_standardized_code (section_of final) (subsection_of final) = Ok code' →
  (forallb row_printable (rows_of (standardize_file <$> dir)) = true →
   FromReport (PrintRow (fname f) (S (length items))
                 (JStr (code ++ lit "-" ++ format_03d 1))
                 (JStr (code' ++ lit "-" ++ format_03d (S (length items)))))
   ∈ snd (fst (main (Some dir)))
   ∧ List.last (snd (fst (main (Some dir)))) PrintReady = PrintReady
   ∧ PrintReady ∈ snd (fst (main (Some dir)))
   ∧ snd (main (Some dir)) = None)
  ∧ (forallb row_printable (rows_of (standardize_file <$> dir)) = false →
     (PrintReady ∉ snd (fst (main (Some dir))))
     ∧ snd (main (Some dir)) = Some UnicodeError).
Proof.
  intros Hnd Hun Hk Hx Hp Hc Hfirst Hlast Hcl Hcl' Hcode Hcode'.
  rewrite (main_output _ Hun). cbn [fst snd].
  rewrite files_after_some. cbn [listing].
  rewrite (generate_summary_report_rows _ (standardize_file_names _ Hnd)). cbn [fst snd].
  split.
  - intros Hall.
    assert (Hs : forallb row_printable (sorted_rows (rows_of (standardize_file <$> dir)))
                 = true)
      by (eapply forallb_perm; [apply sorted_rows_perm|exact Hall]).
    rewrite (print_rows_all _ Hs). cbn [fst snd].
    split; [|split; [|split; [|reflexivity]]].
    + apply elem_of_app. right. apply elem_of_app. left.
      apply list_elem_of_In, in_map, in_cons, in_or_app. right. right.
      pose proof (summarize_after_pass _ _ _ _ _ _ _ _ _ Hk Hx Hp Hc Hfirst Hlast
                    Hcl Hcl' Hcode Hcode') as Hsum.
      assert (Hrow : In (fname (standardize_file f), _)
                        (rows_of (standardize_file <$> dir)))
        by (eapply (rows_of_in _ k);
            [rewrite list_lookup_fmap, Hk; reflexivity
            |rewrite standardize_file_name; exact Hx
            |exact Hsum]).
      rewrite standardize_file_name in Hrow.
      apply (Permutation_in _ (sorted_rows_perm _)) in Hrow.
      apply (in_map print_row) in Hrow. exact Hrow.
    + rewrite !app_assoc. apply last_last.
    + apply elem_of_app. right. apply elem_of_app. right.
      apply elem_of_cons. left. reflexivity.
  - intros Hall.
    destruct (forallb row_printable (sorted_rows (rows_of (standardize_file <$> dir))))
      eqn:Hs.
    + rewrite (forallb_perm _ _ _ (Permutation_sym (sorted_rows_perm _)) Hs) in Hall.
      discriminate.
    + destruct (print_rows_stop _ Hs) as (listed & row & rest & _ & _ & _ & ->).
      cbn [fst snd]. split; [|reflexivity].
      rewrite app_nil_r. intros H. apply elem_of_app in H. destruct H as [H|H].
      * exact (ready_not_in_pass _ H).
      * exact (ready_not_in_report _ H).
Qed.

Lemma X12_witness_strengthen_row :
  FromReport (PrintRow (lit "strengthen.json") 5
                (JStr (lit "lr-str-001")) (JStr (lit "lr-str-005")))
  ∈ snd (fst (main (Some [strengthen_file; note_first_file])))
  ∧ snd (main (Some [strengthen_file; note_first_file])) = None.
Proof.
  edestruct (X12_report_row_of_processed_file
               [strengthen_file; note_first_file] 0 strengthen_file)
    as [Hall _]; try reflexivity.
  - apply NoDup_ListNoDup. vm_compute.
    repeat (constructor; [intros H; vm_compute in H; intuition discriminate|]).
    constructor.
  - destruct Hall as (Hrow & _ & _ & Hret); [reflexivity|].
    split; [exact Hrow|exact Hret].
Defined.

Section Lines.
Context {R : Runtime}.
Implicit Types (fields : list (pystr * json)) (question : json) (i updated : nat).
Implicit Types (questions : list json).

Lemma get_standardized_code_ok (section subsection : json) :
  (∃ code, get_standardized_code section subsection = Ok code)
  ↔ is_str section && is_str subsection = true.
Proof.
  destruct section, subsection; cbn; split;
    try (intros [code H]; discriminate H); try discriminate; auto.
  intros _. eexists. reflexivity.
Qed.

(** What one turn prints. *)
Lemma assign_question_lines i question updated question' updated' out :
  assign_question i question updated = (question', updated', out, None) →
  length (List.filter is_change out) = (Nat.min 3 updated' - Nat.min 3 updated)%nat
  ∧ length (List.filter is_missing out)
    = (if unclassified_dict question then 1 else 0)%nat
  ∧ (updated ≤ updated' ≤ S updated)%nat.
Proof.
  unfold unclassified_dict.
  destruct question as [| | | | |fields];
    try (rewrite assign_question_other by reflexivity; intros [= _ <- <-];
         cbn [List.filter length is_dict andb]; repeat split; lia).
  cbn [is_dict andb]. turn_cases fields; try discriminate; cbn [negb].
  - cbn zeta. destruct (differs _ _).
    + destruct (S updated <=? 3)%nat eqn:E.
      * destruct (printable _ && utf8_encodable _); [|discriminate].
        intros [= _ <- <-]. cbn [List.filter is_change is_missing length].
        apply Nat.leb_le in E. repeat split; lia.
      * intros [= _ <- <-]. cbn [List.filter is_change is_missing length].
        apply Nat.leb_gt in E. repeat split; lia.
    + intros [= _ <- <-]. cbn [List.filter length]. repeat split; lia.
  - intros [= _ <- <-]. cbn [List.filter is_change is_missing length]. repeat split; lia.
Qed.

Lemma assign_questions_lines i questions updated questions' updated' out :
  assign_questions i questions updated = (questions', updated', out, None) →
  length (List.filter is_change out) = (Nat.min 3 updated' - Nat.min 3 updated)%nat
  ∧ length (List.filter is_missing out)
    = length (List.filter unclassified_dict questions)
  ∧ (updated ≤ updated' ≤ updated + length questions)%nat.
Proof.
  revert i updated questions' updated' out.
  induction questions as [|question rest IH]; intros i updated questions' updated' out H.
  - simpl in H. injection H as _ <- <-. cbn [List.filter length]. repeat split; lia.
  - simpl in H.
    destruct (assign_question i question updated) as [[[q1 u1] o1] [e1|]] eqn:Hq;
      [discriminate|].
    destruct (assign_questions (S i) rest u1) as [[[r1 u2] o2] e2] eqn:Hr.
    injection H as <- <- <- ->.
    destruct (assign_question_lines _ _ _ _ _ _ Hq) as (Hc1 & Hm1 & Hu1).
    destruct (IH _ _ _ _ _ Hr) as (Hc2 & Hm2 & Hu2).
    rewrite !List.filter_app, !length_app, Hc1, Hc2, Hm1, Hm2.
    cbn [List.filter length]. destruct (unclassified_dict question); cbn [length];
      repeat split; lia.
Qed.

End Lines.

(** X13: [get_standardized_code] returns a code exactly when both arguments
    are strings.  So a file with a classified record whose section or
    subsection is not a string is never processed. *)
Theorem X13_code_needs_two_strings `{R : Runtime} (section subsection : json) :
  ((∃ code, get_standardized_code section subsection = Ok code)
   ↔ is_str section && is_str subsection = true)
  ∧ ∀ f questions i fields,
      fcontent f = Parsed (JArr questions) →
      questions !! i = Some (JObj fields) →
      classified (JObj fields) = true →
      section_of fields = section →
      subsection_of fields = subsection →
      is_str section && is_str subsection = false →
      processed f = false.
Proof.
  split; [apply get_standardized_code_ok|].
  intros f questions i fields Hc Hi Hcl <- <- Hstr.
  destruct (processed f) eqn:Hp; [exfalso|reflexivity].
  destruct (processed_inv f Hp) as (qs & qs' & updated & out & Hc' & Ha & _).
  rewrite Hc in Hc'. injection Hc' as <-.
  destruct (assign_questions_turn _ _ _ _ _ _ _ _ Ha Hi) as (u & Hu & _).
  cbn [Nat.add] in Hu.
  destruct (code_cases fields) as [[code Hk]|[e Hk]].
  - assert (H : is_str (section_of fields) && is_str (subsection_of fields) = true)
      by (apply get_standardized_code_ok; eauto).
    congruence.
  - rewrite (assign_question_raise _ _ _ e Hcl Hk) in Hu. discriminate.
Qed.

Lemma X13_witness_number_as_section :
  get_standardized_code (@JNum int_runtime 5%Z) (JStr (lit "Inference"))
  = Raise AttributeError
  ∧ processed broken_file = false.
Proof.
  destruct (X13_code_needs_two_strings (@JNum int_runtime 5%Z) (JStr (lit "Inference")))
    as [_ H].
  split; [reflexivity|].
  eapply (H broken_file _ 1%nat); reflexivity.
Defined.

(** X14: for a processed file the pass prints one warning for each dict that
    lacks a classification field, prints at most three example changes (all
    of them when there are fewer than three), and reports a number of
    updated IDs that is at most the number of records. *)
Theorem X14_lines_printed_for_a_file `{R : Runtime} (f : file) (questions : list json) :
  processed f = true →
  fcontent f = Parsed (JArr questions) →
  length (List.filter is_missing (snd (fst (process_file f))))
  = length (List.filter unclassified_dict questions)
  ∧ length (List.filter is_change (snd (fst (process_file f))))
    = Nat.min 3 (changed_count 0 questions)
  ∧ (changed_count 0 questions ≤ length questions)%nat.
Proof.
  intros Hp Hc.
  destruct (processed_inv f Hp) as (qs & qs' & updated & out & Hc' & Ha & _ & _ & Hpf).
  rewrite Hc in Hc'. injection Hc' as <-.
  destruct (assign_questions_lines _ _ _ _ _ _ Ha) as (Hch & Hm & Hu).
  pose proof (assign_questions_count _ _ _ _ _ _ Ha) as Hcount. cbn [Nat.add] in Hcount.
  subst updated. rewrite Hpf. cbn [fst snd List.filter is_missing is_change].
  rewrite !List.filter_app, !length_app. cbn [List.filter is_missing is_change length].
  rewrite Hch, Hm. repeat split; lia.
Qed.

Lemma X14_witness_thousand_changes :
  length (List.filter is_change (snd (fst (process_file thousand_file)))) = 3%nat
  ∧ length (List.filter is_missing (snd (fst (process_file strengthen_file)))) = 1%nat.
Proof.
  destruct (X14_lines_printed_for_a_file thousand_file _ eq_refl eq_refl) as (_ & Hch & _).
  destruct (X14_lines_printed_for_a_file strengthen_file _ eq_refl eq_refl) as (Hm & _ & _).
  split.
  - rewrite Hch. vm_compute. reflexivity.
  - rewrite Hm. reflexivity.
Defined.
